(** * sju-mcp: the Contentful query layer and the MCP search/statistics tools

    A shallow embedding of [src/app/utils/contentful.ts] (the client handle
    and the per-type resolvers), of the environment validation module and of
    the [contentful-stats] resource and [search-content] tool of the MCP
    route handler, together with the properties the specification states
    about them. *)

From Stdlib Require Import ZArith Ascii String.
From stdpp Require Import base option list strings pretty gmap fin_maps sorting.

Local Open Scope string_scope.
Local Open Scope Z_scope.
Local Open Scope list_scope.
Local Open Scope stdpp_scope.

(** ** JavaScript strings and arrays *)

Module Js.

(** A string is the sequence of the bytes of its UTF-8 encoding. One
    well-formed text occurs in another as a run of bytes exactly when it
    does as a run of code units, which is what [includes] looks for. *)

(** A string is truthy when it is not empty. *)
Definition truthy (s : string) : bool :=
  match s with
  | EmptyString => false
  | String _ _ => true
  end.

(** [String.prototype.toLowerCase] belongs to the engine, with the case
    tables of Unicode behind it: it lowers every cased letter, and not
    character by character. It is taken as given, and what is proved of
    the search holds for every such function; the one fact used about it
    is that it leaves the empty string empty. *)
Class Lowering := {
  toLowerCase : string → string;
  toLowerCase_empty : toLowerCase EmptyString = EmptyString
}.

(** What it does on text made of ASCII characters: the letters [A]..[Z]
    move to [a]..[z], every other character is kept. The samples, which are
    ASCII, are run with it. *)
Definition lower_ascii (c : ascii) : ascii :=
  let n := nat_of_ascii c in
  if ((65 <=? n) && (n <=? 90))%nat then ascii_of_nat (n + 32) else c.

Fixpoint asciiLowerCase (s : string) : string :=
  match s with
  | EmptyString => EmptyString
  | String c s' => String (lower_ascii c) (asciiLowerCase s')
  end.

Definition asciiLowering : Lowering :=
  {| toLowerCase := asciiLowerCase; toLowerCase_empty := eq_refl |}.

(** What it does, further, on the accented capitals of Latin-1, U+00C0 to
    U+00DE without the multiplication sign: in UTF-8 these are the byte
    195 followed by a byte from 128 to 158, and the small letter is 32
    further. *)
Definition isLatin1Capital (c d : ascii) : bool :=
  let n := nat_of_ascii d in
  ((nat_of_ascii c =? 195) && (128 <=? n) && (n <=? 158) && negb (n =? 151))%nat.

Fixpoint latin1LowerCase (s : string) : string :=
  match s with
  | EmptyString => EmptyString
  | String c s' =>
      match s' with
      | String d s'' =>
          if isLatin1Capital c d
          then String c (String (ascii_of_nat (nat_of_ascii d + 32)) (latin1LowerCase s''))
          else String (lower_ascii c) (latin1LowerCase s')
      | EmptyString => String (lower_ascii c) EmptyString
      end
  end.

Definition latin1Lowering : Lowering :=
  {| toLowerCase := latin1LowerCase; toLowerCase_empty := eq_refl |}.

(** [t.startsWith(q)]. *)
Fixpoint startsWith (t q : string) {struct q} : bool :=
  match q, t with
  | EmptyString, _ => true
  | String _ _, EmptyString => false
  | String a q', String b t' => if ascii_dec a b then startsWith t' q' else false
  end.

(** [t.includes(q)]: [q] occurs in [t] at some position. *)
Fixpoint includes (t q : string) : bool :=
  startsWith t q ||
  match t with
  | EmptyString => false
  | String _ t' => includes t' q
  end.

(** [Array.prototype.slice(start, end)] for integral arguments: negative
    indices count from the end, everything is clamped to the array. *)
Definition clampIndex (len i : Z) : Z :=
  if i <? 0 then Z.max (len + i) 0 else Z.min i len.

Definition slice {A} (l : list A) (start end_ : Z) : list A :=
  let len := Z.of_nat (length l) in
  let k := clampIndex len start in
  let final := clampIndex len end_ in
  take (Z.to_nat (Z.max (final - k) 0)) (drop (Z.to_nat k) l).

(** [Array.prototype.sort(cmp)] is stable; insertion from the right with
    a strict test keeps equal elements in their order. A comparator
    result that is [None] stands for [NaN], which [sort] reads as [0].
    With such results the comparator is not consistent and the order the
    engine produces is implementation-defined: the order computed here is
    then one admissible order, and only the fact that the result is a
    rearrangement of the input carries over to every engine. *)
Section Sort.
Context {A : Type} (cmp : A → A → option Z).

Definition cmpSign (a b : A) : Z :=
  match cmp a b with
  | Some v => v
  | None => 0
  end.

Fixpoint insertSorted (x : A) (l : list A) : list A :=
  match l with
  | [] => [x]
  | y :: l' => if 0 <? cmpSign x y then y :: insertSorted x l' else x :: l
  end.

Fixpoint sort (l : list A) : list A :=
  match l with
  | [] => []
  | x :: l' => insertSorted x (sort l')
  end.
End Sort.

End Js.

(** ** Effects: console output and exceptions *)

Inductive Level := LLog | LInfo | LWarn | LError.

Record LogEntry := { level : Level; message : string }.

(** What a [throw] carries: an [Error] object with its message, or any
    other value (kept as [String(value)]). *)
Inductive Thrown :=
| ErrorObj (msg : string)
| NonError (repr : string).

(** [error instanceof Error ? error.message : String(error)] *)
Definition errorText (e : Thrown) : string :=
  match e with
  | ErrorObj m => m
  | NonError s => s
  end.

(** A computation writes to the console and then returns or throws. *)
Definition M (A : Type) : Type := list LogEntry * (Thrown + A).

Definition ret {A} (a : A) : M A := ([], inr a).

Definition throw {A} (e : Thrown) : M A := ([], inl e).

Definition bind {A B} (m : M A) (f : A → M B) : M B :=
  match m with
  | (l, inl e) => (l, inl e)
  | (l, inr a) => let '(l', r) := f a in (l ++ l', r)
  end.

(** [try { body } catch (error) { handler }] *)
Definition try_catch {A} (body : M A) (handler : Thrown → M A) : M A :=
  match body with
  | (l, inl e) => let '(l', r) := handler e in (l ++ l', r)
  | (l, inr a) => (l, inr a)
  end.

Definition console (lv : Level) (msg : string) : M unit :=
  ([ {| level := lv; message := msg |} ], inr tt).

(** A call into a library that either returns or throws, and [await p]
    on a promise that either resolves or rejects. *)
Definition perform {A} (r : Thrown + A) : M A := ([], r).
Definition await {A} (p : Thrown + A) : M A := perform p.

#[global] Instance M_ret : MRet M := @ret.
#[global] Instance M_bind : MBind M := λ A B f m, bind m f.

Definition logs {A} (m : M A) : list LogEntry := fst m.
Definition outcome {A} (m : M A) : Thrown + A := snd m.

(** The returned value, or [d] when the computation threw. *)
Definition outcome_value {A} (d : A) (m : M A) : A :=
  match outcome m with
  | inr a => a
  | inl _ => d
  end.

(** The computation completed without throwing, with value [a]. *)
Definition returns {A} (m : M A) (a : A) : Prop := outcome m = inr a.
Definition throws {A} (m : M A) (e : Thrown) : Prop := outcome m = inl e.

(** ** Data model ([contentful.ts], lines 9-182) *)

(** Rich text documents are carried around and never inspected. *)
Inductive Document := RichText (raw : string).

(** A linked asset. The interfaces declare [fields.file.url] as present;
    the code reads it with [?.] at every step, so every step is optional
    here. *)
Module Asset.
Record File := {
  url : option string;
  fileName : option string;
  contentType : option string;
  dimensions : option (Z * Z)
}.
Record Fields := { file : option File; title : option string }.
Record t := { fields : option Fields }.

(** [asset?.fields?.file?.url] *)
Definition fileUrl (a : option t) : option string :=
  x ← a; f ← fields x; fl ← file f; url fl.
End Asset.

Module Sys.
Record t := { id : string }.
End Sys.

(** An entry of the store with fields of type [F]. The raw record may or
    may not carry a [contentTypeId] of its own. *)
Record Entry (F : Type) := {
  sys : Sys.t;
  contentTypeId : option string;
  fields : F
}.
Arguments sys {F} _.
Arguments contentTypeId {F} _.
Arguments fields {F} _.

(** [{ ...item, contentTypeId: ct }] *)
Definition stamp {F} (ct : string) (item : Entry F) : Entry F :=
  {| sys := sys item; contentTypeId := Some ct; fields := fields item |}.

Module BlogPost.
Record Fields := {
  title : string;
  slug : string;
  content : Document;
  excerpt : string;
  author : string;
  publishDate : string;
  coverImage : option Asset.t
}.
End BlogPost.

Module Meeting.
Record Fields := {
  title : string;
  date : string;
  description : string;
  image : option Asset.t;
  meetingLocation : option string;
  slides : option Asset.t;
  slidesUrl : option string;
  recording : option string;
  resourcesUrl : option string
}.
End Meeting.

Module ParallaxBanner.
Record Fields := {
  title : string;
  image : option Asset.t;
  link : option string
}.
End ParallaxBanner.

Module EboardMember.
Inductive MemberType := current | past.
Record Fields := {
  name : string;
  position : string;
  description : string;
  linkedin : string;
  github : option string;
  year : option string;
  image : option Asset.t;
  memberType : MemberType
}.
End EboardMember.

Module Hackathon.
(** The statuses a caller can ask for. *)
Inductive Status := ongoing | upcoming | past.

#[global] Instance Status_eq_dec : EqDecision Status.
Proof. solve_decision. Defined.

(** The string each of them is written as. *)
Definition statusName (s : Status) : string :=
  match s with
  | ongoing => "ongoing"
  | upcoming => "upcoming"
  | past => "past"
  end.

(** The interface declares [status] as one of those three strings; the
    store is not checked against it, so a record carries whatever string
    was entered, or none. *)
Record Fields := {
  title : string;
  slug : option string;
  description : string;
  startDate : option string;
  endDate : option string;
  status : option string;
  registrationLink : option string;
  details : option Document;
  image : option Asset.t
}.
End Hackathon.

Module LandingPageGraphic.
Record Fields := {
  title : string;
  description : option string;
  image : option Asset.t;
  graphic : option Asset.t
}.
End LandingPageGraphic.

(** The entry skeleton a call to [getEntries<T>] is instantiated with. *)
Inductive Skeleton :=
| SBlogPost | SMeeting | SParallaxBanner
| SEboardMember | SHackathon | SLandingPageGraphic.

Definition fieldsOf (s : Skeleton) : Type :=
  match s with
  | SBlogPost => BlogPost.Fields
  | SMeeting => Meeting.Fields
  | SParallaxBanner => ParallaxBanner.Fields
  | SEboardMember => EboardMember.Fields
  | SHackathon => Hackathon.Fields
  | SLandingPageGraphic => LandingPageGraphic.Fields
  end.

(** ** The remote client *)

(** The argument of [getEntries]: the content type, the field filters
    (such as ["fields.memberType"] or ["fields.slug[match]"]), the sort keys
    and the page size. *)
Record Query := {
  content_type : string;
  filters : list (string * string);
  order : list string;
  limit : option Z
}.

Record EntryCollection (F : Type) := { items : list (Entry F) }.
Arguments items {F} _.

(** [ContentfulClientApi]: the one operation the module uses. A call
    resolves with a collection or rejects. *)
Record ContentfulClientApi := {
  getEntries : ∀ s : Skeleton, Query → Thrown + EntryCollection (fieldsOf s)
}.

(** [{ getEntries: async () => ({ items: [] }) }] *)
Definition dummyClient : ContentfulClientApi :=
  {| getEntries := λ s _, inr {| items := [] |} |}.

(** ** Environment validation ([config/env]) *)

Record ProcessEnv := {
  process_REDIS_URL : option string;
  process_CONTENTFUL_SPACE_ID : option string;
  process_CONTENTFUL_ACCESS_TOKEN : option string
}.

Record Env := {
  REDIS_URL : string;
  CONTENTFUL_SPACE_ID : string;
  CONTENTFUL_ACCESS_TOKEN : string
}.

(** [envSchema.parse]: each variable is a [z.string()], so any string
    passes, the empty one too, and an undefined variable is an issue
    reported under its name. The result is the parsed object or the paths
    of the issues of the [ZodError]. *)
Definition issuePath (name : string) (value : option string) : list string :=
  match value with
  | Some _ => []
  | None => [name]
  end.

Definition envSchema_parse (raw : ProcessEnv) : list string + Env :=
  match process_REDIS_URL raw, process_CONTENTFUL_SPACE_ID raw,
        process_CONTENTFUL_ACCESS_TOKEN raw with
  | Some r, Some s, Some t =>
      inr {| REDIS_URL := r; CONTENTFUL_SPACE_ID := s; CONTENTFUL_ACCESS_TOKEN := t |}
  | r, s, t =>
      inl (issuePath "REDIS_URL" r ++
           issuePath "CONTENTFUL_SPACE_ID" s ++
           issuePath "CONTENTFUL_ACCESS_TOKEN" t)
  end.

(** [validateEnv]; the module exports [env = validateEnv()], so a throw
    here is a failure to load the module and whatever imports it. *)
Definition validateEnv (raw : ProcessEnv) : M Env :=
  console LInfo "Validating environment variables";;
  match envSchema_parse raw with
  | inr parsed =>
      console LInfo "Environment variables validated successfully";;
      mret parsed
  | inl missingVars =>
      console LError "Invalid environment variables";;
      throw (ErrorObj ("❌ Invalid environment variables: " +:+
                       String.concat ", " missingVars +:+
                       ". Please check your .env file"))
  end.

(** ** Client initialisation ([contentful.ts], lines 184-218) *)

Definition missingCredentialsWarning : string :=
  "Warning: Missing Contentful environment variables. Using fallback data where available.".

Definition initClient (env : Env)
    (createClient : string → string → Thrown + ContentfulClientApi)
    : M ContentfulClientApi :=
  try_catch
    ((if negb (Js.truthy (CONTENTFUL_SPACE_ID env)) ||
         negb (Js.truthy (CONTENTFUL_ACCESS_TOKEN env))
      then console LWarn missingCredentialsWarning
      else mret tt);;
     let spaceId := CONTENTFUL_SPACE_ID env in
     let accessToken := CONTENTFUL_ACCESS_TOKEN env in
     (if negb (Js.truthy spaceId) || negb (Js.truthy accessToken)
      then console LWarn missingCredentialsWarning;;
           throw (ErrorObj "Contentful credentials are missing")
      else mret tt);;
     client ← perform (createClient spaceId accessToken);
     console LLog "Contentful client initialized successfully";;
     mret client)
    (λ error,
       console LError ("Error initializing Contentful client: " +:+ errorText error);;
       mret dummyClient).

(** Loading the application: the environment module first, then the
    Contentful module with its client. *)
Record Loaded := { loaded_env : Env; loaded_client : ContentfulClientApi }.

Definition loadModules (raw : ProcessEnv)
    (createClient : string → string → Thrown + ContentfulClientApi) : M Loaded :=
  env ← validateEnv raw;
  client ← initClient env createClient;
  mret {| loaded_env := env; loaded_client := client |}.

(** ** Query resolvers ([contentful.ts], lines 220-553) *)

Definition quote : string := String (ascii_of_nat 34) EmptyString.

(** Truthiness of a possibly undefined string. *)
Definition truthyOpt (o : option string) : bool :=
  match o with
  | Some s => Js.truthy s
  | None => false
  end.

(** The queries the resolvers send, one per call site. *)
Definition allPostsQuery : Query :=
  {| content_type := "blogPost"; filters := [];
     order := ["-sys.createdAt"]; limit := None |}.

Definition postBySlugQuery (slug : string) : Query :=
  {| content_type := "blogPost"; filters := [("fields.slug[match]", slug)];
     order := []; limit := Some 1 |}.

Definition allMeetingsQuery : Query :=
  {| content_type := "meeting"; filters := [];
     order := ["-fields.date"]; limit := None |}.

Definition upcomingMeetingsQuery : Query :=
  {| content_type := "upcomingMeeting"; filters := [];
     order := ["-sys.createdAt"]; limit := None |}.

Definition parallaxBannersQuery : Query :=
  {| content_type := "parallaxBanner"; filters := [];
     order := ["-sys.createdAt"]; limit := None |}.

Definition eboardMembersQuery (memberType : string) : Query :=
  {| content_type := "eboardMember"; filters := [("fields.memberType", memberType)];
     order := ["sys.createdAt"]; limit := None |}.

Definition allHackathonsQuery : Query :=
  {| content_type := "hackathon"; filters := [];
     order := ["-fields.startDate"]; limit := None |}.

(** The page both the status and the identifier lookups fetch: hackathons,
    a hundred at most, with neither filter nor order. *)
Definition hackathonPage : Query :=
  {| content_type := "hackathon"; filters := []; order := []; limit := Some 100 |}.

Definition graphicByTitleQuery (title : string) : Query :=
  {| content_type := "landingPageGraphics"; filters := [("fields.title", title)];
     order := []; limit := Some 1 |}.

Definition allGraphicsQuery : Query :=
  {| content_type := "landingPageGraphics"; filters := [];
     order := ["sys.createdAt"]; limit := None |}.

Section Resolvers.
(** The module-level [env] and [client], and the clock reading
    [new Date(s).getTime()], which is [None] for [NaN]. *)
Context (env : Env) (client : ContentfulClientApi).
Context (getTime : string → option Z).

Definition contentfulError {A} (fallback : A) (error : Thrown) : M A :=
  console LError ("Contentful error: " +:+ errorText error);;
  mret fallback.

Definition getAllPosts : M (list (Entry BlogPost.Fields)) :=
  try_catch
    (console LLog "Fetching posts with:";;
     response ← await (getEntries client SBlogPost allPostsQuery);
     mret (stamp "blogPost" <$> items response))
    (contentfulError []).

Definition getPostBySlug (slug : string) : M (option (Entry BlogPost.Fields)) :=
  try_catch
    (let query := postBySlugQuery slug in
     response ← await (getEntries client SBlogPost query);
     match items response with
     | [] => mret None
     | item :: _ => mret (Some (stamp "blogPost" item))
     end)
    (λ error,
       console LError ("Error fetching post: " +:+ errorText error);;
       mret None).

(** The comparator of [getAllMeetings]: [dateB - dateA]. *)
Definition byDateDescending (a b : Entry Meeting.Fields) : option Z :=
  dateA ← getTime (Meeting.date (fields a));
  dateB ← getTime (Meeting.date (fields b));
  Some (dateB - dateA).

Definition getAllMeetings : M (list (Entry Meeting.Fields)) :=
  try_catch
    (response ← await (getEntries client SMeeting allMeetingsQuery);
     let sortedMeetings := Js.sort byDateDescending (items response) in
     mret (stamp "meeting" <$> sortedMeetings))
    (contentfulError []).

Definition getUpcomingMeetings : M (list (Entry Meeting.Fields)) :=
  try_catch
    (response ← await (getEntries client SMeeting upcomingMeetingsQuery);
     mret (stamp "upcomingMeeting" <$> items response))
    (contentfulError []).

Definition getParallaxBanners : M (list (Entry ParallaxBanner.Fields)) :=
  try_catch
    (response ← await (getEntries client SParallaxBanner parallaxBannersQuery);
     mret (stamp "parallaxBanner" <$> items response))
    (contentfulError []).

Definition getCurrentEboardMembers : M (list (Entry EboardMember.Fields)) :=
  try_catch
    (response ← await (getEntries client SEboardMember (eboardMembersQuery "current"));
     mret (stamp "eboardMember" <$> items response))
    (contentfulError []).

Definition getPastEboardMembers : M (list (Entry EboardMember.Fields)) :=
  try_catch
    (response ← await (getEntries client SEboardMember (eboardMembersQuery "past"));
     mret (stamp "eboardMember" <$> items response))
    (contentfulError []).

Definition getAllHackathons : M (list (Entry Hackathon.Fields)) :=
  try_catch
    (console LLog "Fetching all hackathons";;
     response ← await (getEntries client SHackathon allHackathonsQuery);
     console LLog ("Found " +:+ pretty (length (items response)) +:+ " hackathons");;
     (if bool_decide (0 < length (items response))%nat
      then console LLog "Hackathon slugs:"
      else mret tt);;
     mret (stamp "hackathon" <$> items response))
    (contentfulError []).

(** [item.fields.status || "upcoming"] *)
Definition itemStatus (item : Entry Hackathon.Fields) : string :=
  if truthyOpt (Hackathon.status (fields item))
  then default "" (Hackathon.status (fields item))
  else "upcoming".

Definition getHackathonsByStatus (status : Hackathon.Status)
    : M (list (Entry Hackathon.Fields)) :=
  try_catch
    (response ← await (getEntries client SHackathon hackathonPage);
     let filteredItems :=
       List.filter (λ item, bool_decide (itemStatus item = Hackathon.statusName status))
                   (items response) in
     mret (stamp "hackathon" <$> filteredItems))
    (contentfulError []).

Definition getHackathonBySlug (slug : string) : M (option (Entry Hackathon.Fields)) :=
  try_catch
    (console LLog ("Fetching hackathon with slug: " +:+ slug);;
     response ← await (getEntries client SHackathon hackathonPage);
     console LLog ("Found " +:+ pretty (length (items response)) +:+ " hackathons total");;
     (if bool_decide (0 < length (items response))%nat
      then console LLog "Available fields:"
      else mret tt);;
     match List.find (λ item, String.eqb (Sys.id (sys item)) slug) (items response) with
     | None => mret None
     | Some hackathon => mret (Some (stamp "hackathon" hackathon))
     end)
    (λ error,
       console LError ("Error fetching hackathon: " +:+ errorText error);;
       mret None).

(** The [imageUrl] the lookup by title settles on: the URL of the
    [image] field first, then that of the [graphic] field, else [null].
    It is written to the console and not used otherwise. *)
Definition imageUrl (title : string) (item : Entry LandingPageGraphic.Fields)
    : M (option string) :=
  let hasGraphicField := bool_decide (is_Some (LandingPageGraphic.graphic (fields item))) in
  let hasImageField := bool_decide (is_Some (LandingPageGraphic.image (fields item))) in
  if hasImageField && truthyOpt (Asset.fileUrl (LandingPageGraphic.image (fields item)))
  then
    let imageUrl := Asset.fileUrl (LandingPageGraphic.image (fields item)) in
    console LLog ("Found " +:+ title +:+ " URL in image field: " +:+ default "" imageUrl);;
    mret imageUrl
  else if hasGraphicField && truthyOpt (Asset.fileUrl (LandingPageGraphic.graphic (fields item)))
  then
    let imageUrl := Asset.fileUrl (LandingPageGraphic.graphic (fields item)) in
    console LLog ("Found " +:+ title +:+ " URL in graphic field: " +:+ default "" imageUrl);;
    mret imageUrl
  else mret None.

(** [{ ...item, fields: { ...item.fields, image: ... }, contentTypeId }] *)
Definition modifiedItem (item : Entry LandingPageGraphic.Fields)
    : Entry LandingPageGraphic.Fields :=
  let hasGraphicField := bool_decide (is_Some (LandingPageGraphic.graphic (fields item))) in
  {| sys := sys item;
     contentTypeId := Some "landingPageGraphics";
     fields :=
       {| LandingPageGraphic.title := LandingPageGraphic.title (fields item);
          LandingPageGraphic.description := LandingPageGraphic.description (fields item);
          LandingPageGraphic.image :=
            match LandingPageGraphic.image (fields item) with
            | Some image => Some image
            | None =>
                if hasGraphicField
                then LandingPageGraphic.graphic (fields item)
                else None
            end;
          LandingPageGraphic.graphic := LandingPageGraphic.graphic (fields item) |} |}.

Definition getLandingPageGraphicByTitle (title : string)
    : M (option (Entry LandingPageGraphic.Fields)) :=
  try_catch
    (console LLog ("Fetching landing page graphic with title: " +:+ quote +:+ title +:+ quote);;
     if negb (Js.truthy (CONTENTFUL_SPACE_ID env)) ||
        negb (Js.truthy (CONTENTFUL_ACCESS_TOKEN env))
     then
       console LError ("Contentful credentials missing when fetching graphic: " +:+ title);;
       mret None
     else
       response ← await (getEntries client SLandingPageGraphic (graphicByTitleQuery title));
       console LLog ("Found " +:+ pretty (length (items response)) +:+
                     " items for " +:+ quote +:+ title +:+ quote);;
       match items response with
       | [] =>
           console LLog ("No graphic found with title " +:+ quote +:+ title +:+ quote +:+
                         ", returning null");;
           mret None
       | item :: _ =>
           imageUrl title item;;
           mret (Some (modifiedItem item))
       end)
    (λ error,
       console LError ("Error fetching landing page graphic " +:+ quote +:+ title +:+
                       quote +:+ ": " +:+ errorText error);;
       mret None).

Definition getAllLandingPageGraphics : M (list (Entry LandingPageGraphic.Fields)) :=
  try_catch
    (response ← await (getEntries client SLandingPageGraphic allGraphicsQuery);
     mret (stamp "landingPageGraphics" <$> items response))
    (λ error,
       console LError ("Error fetching landing page graphics: " +:+ errorText error);;
       mret []).

End Resolvers.

(** ** The MCP resources and tools (route handler) *)

(** [Promise.all([pa, pb])]: both computations run, whatever the other
    does, and the result rejects as soon as one of them does. Console
    output is kept per computation; the interleaving at the [await]s is not
    represented. When both reject, the engine reports the rejection that
    happened first in time; time is not represented, and the left one is
    taken here. The resolvers given to it below catch their own errors, so
    that this case arises only with a client that breaks them. *)
Definition all2 {A B} (pa : M A) (pb : M B) : M (A * B) :=
  let '(la, ra) := pa in
  let '(lb, rb) := pb in
  (la ++ lb,
   match ra, rb with
   | inr a, inr b => inr (a, b)
   | inl e, _ => inl e
   | inr _, inl e => inl e
   end).

(** The names [z.enum] admits in [contentTypes]. *)
Inductive ContentTypeName :=
| blogPost | meeting | eboardMember | hackathon | landingPageGraphics | parallaxBanner.

#[global] Instance ContentTypeName_eq_dec : EqDecision ContentTypeName.
Proof. solve_decision. Defined.

(** One entry of a per-type result array of the search; its [type] is
    given by the constructor. *)
Inductive SearchHit :=
| BlogPostHit (id title slug excerpt author : string)
| MeetingHit (id title date description : string)
| EboardMemberHit (id name position : string) (memberType : EboardMember.MemberType)
| HackathonHit (id title description : string) (status : option string).

Definition hitType (h : SearchHit) : ContentTypeName :=
  match h with
  | BlogPostHit _ _ _ _ _ => blogPost
  | MeetingHit _ _ _ _ => meeting
  | EboardMemberHit _ _ _ _ => eboardMember
  | HackathonHit _ _ _ _ => hackathon
  end.

(** The object handed to [JSON.stringify] by [search-content]. *)
Record SearchEnvelope := {
  searchQuery : string;
  contentTypes : list ContentTypeName;
  totalResults : nat;
  results : gmap string (list SearchHit)
}.

Inductive SearchResponse :=
| SearchText (envelope : SearchEnvelope)
| SearchError (text : string).

(** The object handed to [JSON.stringify] by [contentful-stats]. *)
Record Counts := {
  count_blogPosts : nat;
  count_meetings : nat;
  count_currentEboardMembers : nat;
  count_pastEboardMembers : nat;
  count_hackathons : nat;
  count_landingPageGraphics : nat;
  count_parallaxBanners : nat
}.

Inductive StatsResponse :=
| StatsText (overview : string) (counts : Counts) (lastUpdated : string)
| StatsError (text : string).

Section Stats.
(** The seven listings the overview awaits, and the clock. *)
Context (posts : M (list (Entry BlogPost.Fields))).
Context (meetings : M (list (Entry Meeting.Fields))).
Context (currentEboard pastEboard : M (list (Entry EboardMember.Fields))).
Context (hackathons : M (list (Entry Hackathon.Fields))).
Context (graphics : M (list (Entry LandingPageGraphic.Fields))).
Context (banners : M (list (Entry ParallaxBanner.Fields))).
Context (now : string).

Definition statsOver : M StatsResponse :=
  try_catch
    ('(posts, (meetings, (currentEboard, (pastEboard, (hackathons, (graphics, banners))))))
       ← all2 posts (all2 meetings (all2 currentEboard (all2 pastEboard
           (all2 hackathons (all2 graphics banners)))));
     mret (StatsText "Contentful CMS Statistics"
             {| count_blogPosts := length posts;
                count_meetings := length meetings;
                count_currentEboardMembers := length currentEboard;
                count_pastEboardMembers := length pastEboard;
                count_hackathons := length hackathons;
                count_landingPageGraphics := length graphics;
                count_parallaxBanners := length banners |}
             now))
    (λ error,
       mret (StatsError ("Error fetching Contentful statistics: " +:+ errorText error))).
End Stats.

Section Tools.
Context {lowering : Js.Lowering}.
Context (client : ContentfulClientApi).
Context (getTime : string → option Z).

(** The [contentful-stats] resource; [now] is [new Date().toISOString()]. *)
Definition contentful_stats (now : string) : M StatsResponse :=
  statsOver
    (getAllPosts client) (getAllMeetings client getTime)
    (getCurrentEboardMembers client) (getPastEboardMembers client)
    (getAllHackathons client) (getAllLandingPageGraphics client)
    (getParallaxBanners client) now.

Definition defaultContentTypes : list ContentTypeName :=
  [blogPost; meeting; eboardMember; hackathon; landingPageGraphics; parallaxBanner].

(** [text.toLowerCase().includes(searchQuery.toLowerCase())] *)
Definition matchesQuery (searchQuery text : string) : bool :=
  Js.includes (Js.toLowerCase text) (Js.toLowerCase searchQuery).

Definition postMatches (q : string) (post : Entry BlogPost.Fields) : bool :=
  matchesQuery q (BlogPost.title (fields post)) ||
  matchesQuery q (BlogPost.excerpt (fields post)) ||
  matchesQuery q (BlogPost.author (fields post)).

Definition postHit (post : Entry BlogPost.Fields) : SearchHit :=
  BlogPostHit (Sys.id (sys post)) (BlogPost.title (fields post)) (BlogPost.slug (fields post))
    (BlogPost.excerpt (fields post)) (BlogPost.author (fields post)).

Definition meetingMatches (q : string) (meeting : Entry Meeting.Fields) : bool :=
  matchesQuery q (Meeting.title (fields meeting)) ||
  matchesQuery q (Meeting.description (fields meeting)).

Definition meetingHit (meeting : Entry Meeting.Fields) : SearchHit :=
  MeetingHit (Sys.id (sys meeting)) (Meeting.title (fields meeting))
    (Meeting.date (fields meeting)) (Meeting.description (fields meeting)).

Definition memberMatches (q : string) (member : Entry EboardMember.Fields) : bool :=
  matchesQuery q (EboardMember.name (fields member)) ||
  matchesQuery q (EboardMember.position (fields member)) ||
  matchesQuery q (EboardMember.description (fields member)).

Definition memberHit (member : Entry EboardMember.Fields) : SearchHit :=
  EboardMemberHit (Sys.id (sys member)) (EboardMember.name (fields member))
    (EboardMember.position (fields member)) (EboardMember.memberType (fields member)).

Definition hackathonMatches (q : string) (hackathon : Entry Hackathon.Fields) : bool :=
  matchesQuery q (Hackathon.title (fields hackathon)) ||
  matchesQuery q (Hackathon.description (fields hackathon)).

Definition hackathonHit (hackathon : Entry Hackathon.Fields) : SearchHit :=
  HackathonHit (Sys.id (sys hackathon)) (Hackathon.title (fields hackathon))
    (Hackathon.description (fields hackathon)) (Hackathon.status (fields hackathon)).

(** [list.filter(matches).slice(0, limit).map(hit)] *)
Definition searchIn {F} (matches : Entry F → bool) (hit : Entry F → SearchHit)
    (limit : Z) (listing : list (Entry F)) : list SearchHit :=
  hit <$> Js.slice (List.filter matches listing) 0 limit.

(** [Object.values(searchResults).reduce((sum, arr) => sum + (arr?.length || 0), 0)] *)
Definition sumLengths (searchResults : gmap string (list SearchHit)) : nat :=
  map_fold (λ _ arr sum, (sum + length arr)%nat) 0%nat searchResults.

(** The [search-content] tool. [contentTypes] and [limit] are optional;
    [limit] defaults to [5]. *)
Definition search_content (searchQuery : string)
    (contentTypes : option (list ContentTypeName)) (limit : option Z)
    : M SearchResponse :=
  let limit := default 5 limit in
  try_catch
    (let searchResults : gmap string (list SearchHit) := ∅ in
     let typesToSearch := default defaultContentTypes contentTypes in
     searchResults ←
       (if bool_decide (blogPost ∈ typesToSearch)
        then posts ← getAllPosts client;
             mret (<["blogPosts" := searchIn (postMatches searchQuery) postHit limit posts]>
                     searchResults)
        else mret searchResults);
     searchResults ←
       (if bool_decide (meeting ∈ typesToSearch)
        then meetings ← getAllMeetings client getTime;
             mret (<["meetings" := searchIn (meetingMatches searchQuery) meetingHit limit meetings]>
                     searchResults)
        else mret searchResults);
     searchResults ←
       (if bool_decide (eboardMember ∈ typesToSearch)
        then '(current, past) ← all2 (getCurrentEboardMembers client)
                                     (getPastEboardMembers client);
             let allMembers := current ++ past in
             mret (<["eboardMembers" := searchIn (memberMatches searchQuery) memberHit limit allMembers]>
                     searchResults)
        else mret searchResults);
     searchResults ←
       (if bool_decide (hackathon ∈ typesToSearch)
        then hackathons ← getAllHackathons client;
             mret (<["hackathons" := searchIn (hackathonMatches searchQuery) hackathonHit limit hackathons]>
                     searchResults)
        else mret searchResults);
     let totalResults := sumLengths searchResults in
     mret (SearchText
             {| searchQuery := searchQuery;
                contentTypes := typesToSearch;
                totalResults := totalResults;
                results := searchResults |}))
    (λ error,
       mret (SearchError ("Error searching content: " +:+ errorText error))).

End Tools.

(** ** The query tools (route handler) *)

(** What a tool hands back: a text, here the object given to
    [JSON.stringify], or an error text with [isError: true]. *)
Inductive ToolResponse (A : Type) :=
| ToolText (payload : A)
| ToolError (text : string).
Arguments ToolText {A} _.
Arguments ToolError {A} _.

(** [{ query, parameters, count, data }] *)
Record QueryEnvelope (P D : Type) := {
  query : string;
  parameters : P;
  count : nat;
  data : list D
}.
Arguments query {P D} _.
Arguments parameters {P D} _.
Arguments count {P D} _.
Arguments data {P D} _.

(** [if (limit && limit > 0) results = results.slice(0, limit)], the same
    in each of the six query tools; the limit is taken as an integer. *)
Definition applyLimit {A} (limit : option Z) (results : list A) : list A :=
  match limit with
  | Some n => if negb (n =? 0) && (0 <? n) then Js.slice results 0 n else results
  | None => results
  end.

(** [post ? [post] : []] *)
Definition arrayOf {A} (found : option A) : list A :=
  match found with
  | Some x => [x]
  | None => []
  end.

(** [a || b] on possibly undefined strings. *)
Definition orElse (a b : option string) : option string :=
  if truthyOpt a then a else b.

Module PostRow.
Record t := {
  id : string;
  title : string;
  slug : string;
  excerpt : string;
  author : string;
  publishDate : string;
  coverImageUrl : option string
}.
End PostRow.

Module MeetingRow.
Record t := {
  id : string;
  title : string;
  date : string;
  description : string;
  meetingLocation : option string;
  slidesUrl : option string;
  recording : option string;
  resourcesUrl : option string;
  imageUrl : option string
}.
End MeetingRow.

Module MemberRow.
Record t := {
  id : string;
  name : string;
  position : string;
  description : string;
  linkedin : string;
  github : option string;
  year : option string;
  memberType : EboardMember.MemberType;
  imageUrl : option string
}.
End MemberRow.

Module HackathonRow.
Record t := {
  id : string;
  title : string;
  slug : option string;
  description : string;
  startDate : option string;
  endDate : option string;
  status : option string;
  registrationLink : option string;
  imageUrl : option string
}.
End HackathonRow.

Module GraphicRow.
Record t := {
  id : string;
  title : string;
  description : option string;
  imageUrl : option string
}.
End GraphicRow.

Module BannerRow.
Record t := {
  id : string;
  title : string;
  link : option string;
  imageUrl : option string
}.
End BannerRow.

(** The values of the [z.enum] parameters. *)
Module MeetingsKind.
Inductive t := all | upcoming.
End MeetingsKind.

Module MemberKind.
Inductive t := current | past | all.
End MemberKind.

Module StatusKind.
Inductive t := ongoing | upcoming | past | all.
End StatusKind.

Definition postRow (post : Entry BlogPost.Fields) : PostRow.t :=
  {| PostRow.id := Sys.id (sys post);
     PostRow.title := BlogPost.title (fields post);
     PostRow.slug := BlogPost.slug (fields post);
     PostRow.excerpt := BlogPost.excerpt (fields post);
     PostRow.author := BlogPost.author (fields post);
     PostRow.publishDate := BlogPost.publishDate (fields post);
     PostRow.coverImageUrl := Asset.fileUrl (BlogPost.coverImage (fields post)) |}.

Definition meetingRow (meeting : Entry Meeting.Fields) : MeetingRow.t :=
  {| MeetingRow.id := Sys.id (sys meeting);
     MeetingRow.title := Meeting.title (fields meeting);
     MeetingRow.date := Meeting.date (fields meeting);
     MeetingRow.description := Meeting.description (fields meeting);
     MeetingRow.meetingLocation := Meeting.meetingLocation (fields meeting);
     MeetingRow.slidesUrl := Meeting.slidesUrl (fields meeting);
     MeetingRow.recording := Meeting.recording (fields meeting);
     MeetingRow.resourcesUrl := Meeting.resourcesUrl (fields meeting);
     MeetingRow.imageUrl := Asset.fileUrl (Meeting.image (fields meeting)) |}.

Definition memberRow (member : Entry EboardMember.Fields) : MemberRow.t :=
  {| MemberRow.id := Sys.id (sys member);
     MemberRow.name := EboardMember.name (fields member);
     MemberRow.position := EboardMember.position (fields member);
     MemberRow.description := EboardMember.description (fields member);
     MemberRow.linkedin := EboardMember.linkedin (fields member);
     MemberRow.github := EboardMember.github (fields member);
     MemberRow.year := EboardMember.year (fields member);
     MemberRow.memberType := EboardMember.memberType (fields member);
     MemberRow.imageUrl := Asset.fileUrl (EboardMember.image (fields member)) |}.

Definition hackathonRow (hackathon : Entry Hackathon.Fields) : HackathonRow.t :=
  {| HackathonRow.id := Sys.id (sys hackathon);
     HackathonRow.title := Hackathon.title (fields hackathon);
     HackathonRow.slug := Hackathon.slug (fields hackathon);
     HackathonRow.description := Hackathon.description (fields hackathon);
     HackathonRow.startDate := Hackathon.startDate (fields hackathon);
     HackathonRow.endDate := Hackathon.endDate (fields hackathon);
     HackathonRow.status := Hackathon.status (fields hackathon);
     HackathonRow.registrationLink := Hackathon.registrationLink (fields hackathon);
     HackathonRow.imageUrl := Asset.fileUrl (Hackathon.image (fields hackathon)) |}.

Definition graphicRow (graphic : Entry LandingPageGraphic.Fields) : GraphicRow.t :=
  {| GraphicRow.id := Sys.id (sys graphic);
     GraphicRow.title := LandingPageGraphic.title (fields graphic);
     GraphicRow.description := LandingPageGraphic.description (fields graphic);
     GraphicRow.imageUrl :=
       orElse (Asset.fileUrl (LandingPageGraphic.image (fields graphic)))
              (Asset.fileUrl (LandingPageGraphic.graphic (fields graphic))) |}.

Definition bannerRow (banner : Entry ParallaxBanner.Fields) : BannerRow.t :=
  {| BannerRow.id := Sys.id (sys banner);
     BannerRow.title := ParallaxBanner.title (fields banner);
     BannerRow.link := ParallaxBanner.link (fields banner);
     BannerRow.imageUrl := Asset.fileUrl (ParallaxBanner.image (fields banner)) |}.

Section QueryTools.
Context (env : Env) (client : ContentfulClientApi).
Context (getTime : string → option Z).

(** The [query-blog-posts] tool. *)
Definition query_blog_posts (slug : option string) (limit : option Z)
    : M (ToolResponse (QueryEnvelope (option string * option Z) PostRow.t)) :=
  try_catch
    (results ←
       (if truthyOpt slug
        then post ← getPostBySlug client (default "" slug);
             mret (arrayOf post)
        else getAllPosts client);
     let results := applyLimit limit results in
     mret (ToolText
             {| query := "blog-posts";
                parameters := (slug, limit);
                count := length results;
                data := postRow <$> results |}))
    (λ error, mret (ToolError ("Error querying blog posts: " +:+ errorText error))).

(** The [query-meetings] tool; [type] defaults to ["all"]. *)
Definition query_meetings (type : option MeetingsKind.t) (limit : option Z)
    : M (ToolResponse (QueryEnvelope (MeetingsKind.t * option Z) MeetingRow.t)) :=
  let type := default MeetingsKind.all type in
  try_catch
    (results ←
       (match type with
        | MeetingsKind.upcoming => getUpcomingMeetings client
        | MeetingsKind.all => getAllMeetings client getTime
        end);
     let results := applyLimit limit results in
     mret (ToolText
             {| query := "meetings";
                parameters := (type, limit);
                count := length results;
                data := meetingRow <$> results |}))
    (λ error, mret (ToolError ("Error querying meetings: " +:+ errorText error))).

(** The [query-eboard-members] tool; [memberType] defaults to ["all"]. *)
Definition query_eboard_members (memberType : option MemberKind.t) (limit : option Z)
    : M (ToolResponse (QueryEnvelope (MemberKind.t * option Z) MemberRow.t)) :=
  let memberType := default MemberKind.all memberType in
  try_catch
    (results ←
       (match memberType with
        | MemberKind.current => getCurrentEboardMembers client
        | MemberKind.past => getPastEboardMembers client
        | MemberKind.all =>
            '(current, past) ← all2 (getCurrentEboardMembers client)
                                     (getPastEboardMembers client);
            mret (current ++ past)
        end);
     let results := applyLimit limit results in
     mret (ToolText
             {| query := "eboard-members";
                parameters := (memberType, limit);
                count := length results;
                data := memberRow <$> results |}))
    (λ error, mret (ToolError ("Error querying eboard members: " +:+ errorText error))).

(** The [query-hackathons] tool; [status] defaults to ["all"]. *)
Definition query_hackathons (status : option StatusKind.t) (slug : option string)
    (limit : option Z)
    : M (ToolResponse
           (QueryEnvelope (StatusKind.t * option string * option Z) HackathonRow.t)) :=
  let status := default StatusKind.all status in
  try_catch
    (results ←
       (if truthyOpt slug
        then hackathon ← getHackathonBySlug client (default "" slug);
             mret (arrayOf hackathon)
        else match status with
             | StatusKind.all => getAllHackathons client
             | StatusKind.ongoing => getHackathonsByStatus client Hackathon.ongoing
             | StatusKind.upcoming => getHackathonsByStatus client Hackathon.upcoming
             | StatusKind.past => getHackathonsByStatus client Hackathon.past
             end);
     let results := applyLimit limit results in
     mret (ToolText
             {| query := "hackathons";
                parameters := (status, slug, limit);
                count := length results;
                data := hackathonRow <$> results |}))
    (λ error, mret (ToolError ("Error querying hackathons: " +:+ errorText error))).

(** The [query-graphics] tool. *)
Definition query_graphics (title : option string) (limit : option Z)
    : M (ToolResponse (QueryEnvelope (option string * option Z) GraphicRow.t)) :=
  try_catch
    (results ←
       (if truthyOpt title
        then graphic ← getLandingPageGraphicByTitle env client (default "" title);
             mret (arrayOf graphic)
        else getAllLandingPageGraphics client);
     let results := applyLimit limit results in
     mret (ToolText
             {| query := "landing-page-graphics";
                parameters := (title, limit);
                count := length results;
                data := graphicRow <$> results |}))
    (λ error, mret (ToolError ("Error querying graphics: " +:+ errorText error))).

(** The [query-banners] tool. *)
Definition query_banners (limit : option Z)
    : M (ToolResponse (QueryEnvelope (option Z) BannerRow.t)) :=
  try_catch
    (results ← getParallaxBanners client;
     let results := applyLimit limit results in
     mret (ToolText
             {| query := "parallax-banners";
                parameters := limit;
                count := length results;
                data := bannerRow <$> results |}))
    (λ error, mret (ToolError ("Error querying banners: " +:+ errorText error))).

End QueryTools.

(** ** Clients to run the resolvers against *)

(** A client whose every call rejects with [e]. *)
Definition failingClient (e : Thrown) : ContentfulClientApi :=
  {| getEntries := λ _ _, inl e |}.

(** An in-memory store. Its client picks the collection by skeleton and
    content type, applies a member-type filter and the page size; other
    filters and the sort keys are left to whoever fills the store. *)
Record Store := {
  store_posts : list (Entry BlogPost.Fields);
  store_meetings : list (Entry Meeting.Fields);
  store_upcomingMeetings : list (Entry Meeting.Fields);
  store_banners : list (Entry ParallaxBanner.Fields);
  store_members : list (Entry EboardMember.Fields);
  store_hackathons : list (Entry Hackathon.Fields);
  store_graphics : list (Entry LandingPageGraphic.Fields)
}.

Definition memberTypeName (t : EboardMember.MemberType) : string :=
  match t with
  | EboardMember.current => "current"
  | EboardMember.past => "past"
  end.

Definition passesFilters (q : Query) (member : Entry EboardMember.Fields) : bool :=
  forallb (λ '(key, value),
             negb (String.eqb key "fields.memberType") ||
             String.eqb value (memberTypeName (EboardMember.memberType (fields member))))
          (filters q).

Definition page {F} (q : Query) (l : list (Entry F)) : list (Entry F) :=
  match limit q with
  | Some n => take (Z.to_nat n) l
  | None => l
  end.

Definition storeEntries (st : Store) (s : Skeleton) (q : Query)
    : list (Entry (fieldsOf s)) :=
  match s with
  | SBlogPost => store_posts st
  | SMeeting =>
      if String.eqb (content_type q) "upcomingMeeting"
      then store_upcomingMeetings st
      else store_meetings st
  | SParallaxBanner => store_banners st
  | SEboardMember => List.filter (passesFilters q) (store_members st)
  | SHackathon => store_hackathons st
  | SLandingPageGraphic => store_graphics st
  end.

Definition storeClient (st : Store) : ContentfulClientApi :=
  {| getEntries := λ s q, inr {| items := page q (storeEntries st s q) |} |}.

Definition emptyStore : Store :=
  {| store_posts := []; store_meetings := []; store_upcomingMeetings := [];
     store_banners := []; store_members := []; store_hackathons := [];
     store_graphics := [] |}.

(** Timestamps written as decimal digits; anything else is [NaN]. *)
Fixpoint digitsTime (acc : Z) (s : string) : option Z :=
  match s with
  | EmptyString => Some acc
  | String c s' =>
      let n := Z.of_nat (nat_of_ascii c) in
      if (48 <=? n) && (n <=? 57) then digitsTime (10 * acc + (n - 48)) s' else None
  end.

Definition sampleGetTime (s : string) : option Z :=
  match s with
  | EmptyString => None
  | _ => digitsTime 0 s
  end.

Definition sampleEnv : Env :=
  {| REDIS_URL := "redis://localhost";
     CONTENTFUL_SPACE_ID := "space";
     CONTENTFUL_ACCESS_TOKEN := "token" |}.

Definition samplePost (i t e a : string) (raw : option string) : Entry BlogPost.Fields :=
  {| sys := {| Sys.id := i |}; contentTypeId := raw;
     fields := {| BlogPost.title := t; BlogPost.slug := i; BlogPost.content := RichText "";
                  BlogPost.excerpt := e; BlogPost.author := a;
                  BlogPost.publishDate := "2024-01-01"; BlogPost.coverImage := None |} |}.

Definition sampleMeeting (i t d desc : string) : Entry Meeting.Fields :=
  {| sys := {| Sys.id := i |}; contentTypeId := None;
     fields := {| Meeting.title := t; Meeting.date := d; Meeting.description := desc;
                  Meeting.image := None; Meeting.meetingLocation := None;
                  Meeting.slides := None; Meeting.slidesUrl := None;
                  Meeting.recording := None; Meeting.resourcesUrl := None |} |}.

Definition sampleMember (i n p : string) (t : EboardMember.MemberType)
    : Entry EboardMember.Fields :=
  {| sys := {| Sys.id := i |}; contentTypeId := None;
     fields := {| EboardMember.name := n; EboardMember.position := p;
                  EboardMember.description := ""; EboardMember.linkedin := "";
                  EboardMember.github := None; EboardMember.year := None;
                  EboardMember.image := None; EboardMember.memberType := t |} |}.

Definition sampleHackathon (i t : string) (sl : option string)
    (st : option Hackathon.Status) : Entry Hackathon.Fields :=
  {| sys := {| Sys.id := i |}; contentTypeId := Some "raw";
     fields := {| Hackathon.title := t; Hackathon.slug := sl;
                  Hackathon.description := ""; Hackathon.startDate := None;
                  Hackathon.endDate := None;
                  Hackathon.status := Hackathon.statusName <$> st;
                  Hackathon.registrationLink := None; Hackathon.details := None;
                  Hackathon.image := None |} |}.

(** A hackathon as the store may hold it, with whatever status was
    entered. *)
Definition rawHackathon (i t : string) (st : option string) : Entry Hackathon.Fields :=
  {| sys := {| Sys.id := i |}; contentTypeId := None;
     fields := {| Hackathon.title := t; Hackathon.slug := None;
                  Hackathon.description := ""; Hackathon.startDate := None;
                  Hackathon.endDate := None; Hackathon.status := st;
                  Hackathon.registrationLink := None; Hackathon.details := None;
                  Hackathon.image := None |} |}.

Definition sampleAsset (u : option string) : Asset.t :=
  {| Asset.fields :=
       Some {| Asset.file := Some {| Asset.url := u; Asset.fileName := None;
                                     Asset.contentType := None; Asset.dimensions := None |};
               Asset.title := Some "asset" |} |}.

Definition sampleGraphic (i t : string) (img gr : option Asset.t)
    : Entry LandingPageGraphic.Fields :=
  {| sys := {| Sys.id := i |}; contentTypeId := None;
     fields := {| LandingPageGraphic.title := t; LandingPageGraphic.description := None;
                  LandingPageGraphic.image := img; LandingPageGraphic.graphic := gr |} |}.

Definition sampleBanner (i t : string) : Entry ParallaxBanner.Fields :=
  {| sys := {| Sys.id := i |}; contentTypeId := None;
     fields := {| ParallaxBanner.title := t; ParallaxBanner.image := None;
                  ParallaxBanner.link := None |} |}.

Definition sampleStore : Store :=
  {| store_posts :=
       [ samplePost "p1" "Hackathon recap" "What we built" "Ada" (Some "bogus");
         samplePost "p2" "Welcome back" "Fall kickoff" "Grace" None;
         samplePost "p3" "Workshop notes" "Intro to hacking" "Linus" None ];
     store_meetings :=
       [ sampleMeeting "m1" "General meeting" "100" "Plans for the hackathon";
         sampleMeeting "m2" "Resume workshop" "300" "Bring a draft";
         sampleMeeting "m3" "Game night" "200" "Snacks" ];
     store_upcomingMeetings := [ sampleMeeting "u1" "Next meeting" "400" "Soon" ];
     store_banners := [ sampleBanner "b1" "Banner" ];
     store_members :=
       [ sampleMember "e1" "Ada" "President" EboardMember.current;
         sampleMember "e2" "Grace" "Hackathon chair" EboardMember.past;
         sampleMember "e3" "Linus" "Treasurer" EboardMember.current ];
     store_hackathons :=
       [ sampleHackathon "h1" "Spring Hackathon" (Some "spring") (Some Hackathon.past);
         sampleHackathon "h2" "Fall Hackathon" (Some "h1") None;
         sampleHackathon "h3" "Winter Hackathon" None (Some Hackathon.ongoing) ];
     store_graphics :=
       [ sampleGraphic "g1" "hero" None (Some (sampleAsset (Some "//img/hero.png"))) ] |}.

(** A store with one hackathon, which was cancelled. *)
Definition cancelledStore : Store :=
  {| store_posts := []; store_meetings := []; store_upcomingMeetings := [];
     store_banners := []; store_members := [];
     store_hackathons := [rawHackathon "h9" "Autumn Hackathon" (Some "cancelled")];
     store_graphics := [] |}.


(** ** Vocabulary of the properties *)


(** The value of a listing resolver: the stamped items when the call
    resolves, the empty array when it rejects. *)
Definition listed {F} (ct : string) (arrange : list (Entry F) → list (Entry F))
    (call : Thrown + EntryCollection F) : list (Entry F) :=
  match call with
  | inr response => stamp ct <$> arrange (items response)
  | inl _ => []
  end.

(** A resolver is total and fail-open: it returns, and when the remote
    [call] it rests on rejects it returns [fallback]. *)
Definition failOpen {A B} (resolver : M A) (call : Thrown + B) (fallback : A) : Prop :=
  (∃ v, returns resolver v) ∧ (∀ e, call = inl e → returns resolver fallback).

(** Every record of the returned array is tagged [ct]. *)
Definition allStamped {F} (ct : string) (resolver : M (list (Entry F))) : Prop :=
  ∃ v, returns resolver v ∧ Forall (λ r, contentTypeId r = Some ct) v.

(** The returned record, when there is one, is tagged [ct]. *)
Definition oneStamped {F} (ct : string) (resolver : M (option (Entry F))) : Prop :=
  ∃ o, returns resolver o ∧ ∀ r, o = Some r → contentTypeId r = Some ct.

(** The test of the status lookup. *)
Definition hasStatus (status : Hackathon.Status) (item : Entry Hackathon.Fields) : bool :=
  bool_decide (itemStatus item = Hackathon.statusName status).

(** One of the seven listings of the overview rejects with [e]. *)
Definition anyThrows
    (posts : M (list (Entry BlogPost.Fields)))
    (meetings : M (list (Entry Meeting.Fields)))
    (currentEboard pastEboard : M (list (Entry EboardMember.Fields)))
    (hackathons : M (list (Entry Hackathon.Fields)))
    (graphics : M (list (Entry LandingPageGraphic.Fields)))
    (banners : M (list (Entry ParallaxBanner.Fields)))
    (e : Thrown) : Prop :=
  throws posts e ∨ throws meetings e ∨ throws currentEboard e ∨
  throws pastEboard e ∨ throws hackathons e ∨ throws graphics e ∨ throws banners e.

(** The key of [searchResults] a content type is searched under; the
    handler has no block for the other two. *)
Definition resultKey (ty : ContentTypeName) : option string :=
  match ty with
  | blogPost => Some "blogPosts"
  | meeting => Some "meetings"
  | eboardMember => Some "eboardMembers"
  | hackathon => Some "hackathons"
  | landingPageGraphics | parallaxBanner => None
  end.

Definition searchable (ty : ContentTypeName) : bool :=
  match resultKey ty with
  | Some _ => true
  | None => false
  end.

(** [if (cond) searchResults[key] = hits] *)
Definition addIf (cond : bool) (key : string) (hits : list SearchHit)
    (searchResults : gmap string (list SearchHit)) : gmap string (list SearchHit) :=
  if cond then <[key := hits]> searchResults else searchResults.

(** The [searchResults] object once the four blocks have run, in terms of
    what the listing resolvers return. *)
Definition resultsFor {lowering : Js.Lowering}
    (client : ContentfulClientApi) (getTime : string → option Z)
    (q : string) (types : list ContentTypeName) (lim : Z)
    : gmap string (list SearchHit) :=
  addIf (bool_decide (hackathon ∈ types)) "hackathons"
    (searchIn (hackathonMatches q) hackathonHit lim
       (outcome_value [] (getAllHackathons client)))
    (addIf (bool_decide (eboardMember ∈ types)) "eboardMembers"
       (searchIn (memberMatches q) memberHit lim
          (outcome_value [] (getCurrentEboardMembers client) ++
           outcome_value [] (getPastEboardMembers client)))
       (addIf (bool_decide (meeting ∈ types)) "meetings"
          (searchIn (meetingMatches q) meetingHit lim
             (outcome_value [] (getAllMeetings client getTime)))
          (addIf (bool_decide (blogPost ∈ types)) "blogPosts"
             (searchIn (postMatches q) postHit lim
                (outcome_value [] (getAllPosts client)))
             ∅))).

(** The hits reported under [key]; none when the key is absent. *)
Definition hitsUnder (e : SearchEnvelope) (key : string) : list SearchHit :=
  default [] (results e !! key).


(** What a query tool answers, given the listing it settled on: a text,
    never an error, whose [count] is the number of rows; a positive limit
    keeps the first rows of the listing, any other limit keeps them all. *)
Definition answersWith {P D A} (tool : M (ToolResponse (QueryEnvelope P D)))
    (name : string) (params : P) (row : A → D) (limit : option Z)
    (listing : list A) : Prop :=
  ∃ e,
    returns tool (ToolText e) ∧
    query e = name ∧ parameters e = params ∧
    count e = length (data e) ∧
    (∀ n, limit = Some n → 0 < n → data e = row <$> take (Z.to_nat n) listing) ∧
    (limit = None ∨ (∃ n, limit = Some n ∧ n ≤ 0) → data e = row <$> listing).

(** The time of a meeting, for meetings whose date can be read. *)
Definition meetingTime (getTime : string → option Z) (m : Entry Meeting.Fields) : Z :=
  default 0 (getTime (Meeting.date (fields m))).

(** A listing resolver hands on what the call resolved with: the same
    identifiers and the same fields, in the same order. *)
Definition passesThrough {F} (resolver : M (list (Entry F)))
    (call : Thrown + EntryCollection F) : Prop :=
  ∀ response, call = inr response →
    ∃ v, returns resolver v ∧
         sys <$> v = sys <$> items response ∧
         fields <$> v = fields <$> items response.

(** The status a value of the [status] parameter stands for; ["all"]
    stands for none. *)
Definition statusOf (kind : StatusKind.t) : option Hackathon.Status :=
  match kind with
  | StatusKind.ongoing => Some Hackathon.ongoing
  | StatusKind.upcoming => Some Hackathon.upcoming
  | StatusKind.past => Some Hackathon.past
  | StatusKind.all => None
  end.

(** The tool answers with a text that reports no row. *)
Definition answersNothing {P D} (tool : M (ToolResponse (QueryEnvelope P D))) : Prop :=
  ∃ e, returns tool (ToolText e) ∧ count e = 0%nat ∧ data e = [].

(** What the envelope holds under [key]: [hits] when the type is in the
    list of the search, nothing otherwise. *)
Definition reportsUnder (e : SearchEnvelope) (ty : ContentTypeName) (key : string)
    (hits : list SearchHit) : Prop :=
  if bool_decide (ty ∈ contentTypes e)
  then results e !! key = Some hits
  else results e !! key = None.

(** The defaulted status of the record is one of the three. *)
Definition hasKnownStatus (item : Entry Hackathon.Fields) : bool :=
  hasStatus Hackathon.ongoing item || hasStatus Hackathon.upcoming item ||
  hasStatus Hackathon.past item.

(** ** Properties *)

(** *** Strings: what [matchesQuery] decides *)

Section StringFacts.




End StringFacts.

(** *** Arrays: [slice] and [sort] *)

Section ArrayFacts.
Context {A : Type}.

(** With a non-negative end, [slice(0, n)] is the first [n] elements. *)
Lemma slice_from_start (l : list A) (n : Z) :
  0 ≤ n → Js.slice l 0 n = take (Z.to_nat n) l.
Proof.
  intros Hn. unfold Js.slice, Js.clampIndex.
  replace (0 <? 0) with false by done.
  destruct (Z.ltb_spec n 0) as [?|_]; [lia |].
  rewrite (Z.min_l 0) by lia. simpl. rewrite drop_0.
  destruct (Z.le_gt_cases n (Z.of_nat (length l))) as [Hle|Hgt].
  - f_equal. lia.
  - rewrite !take_ge; [done | lia | lia].
Qed.


Lemma slice_length_le (l : list A) (n : Z) :
  0 ≤ n → (Z.of_nat (length (Js.slice l 0 n)) ≤ n)%Z.
Proof. intros Hn. rewrite slice_from_start, length_take by done. lia. Qed.

Context (cmp : A → A → option Z).

Lemma insertSorted_perm x (l : list A) : Js.insertSorted cmp x l ≡ₚ x :: l.
Proof.
  induction l as [|y l IH]; simpl; [done |].
  destruct (0 <? Js.cmpSign cmp x y); [| done].
  rewrite IH. apply Permutation_swap.
Qed.

(** Sorting rearranges: nothing is added, dropped or changed. *)
Lemma sort_perm (l : list A) : Js.sort cmp l ≡ₚ l.
Proof.
  induction l as [|x l IH]; simpl; [done |].
  by rewrite insertSorted_perm, IH.
Qed.

Lemma sort_length (l : list A) : length (Js.sort cmp l) = length l.
Proof. by rewrite sort_perm. Qed.

End ArrayFacts.

Example toLowerCase_sample :
  Js.asciiLowerCase "Spring HACKathon 2024!" = "spring hackathon 2024!".
Proof. reflexivity. Qed.

(** The case of an accented letter is ignored by a lowering that knows the
    letter; the ASCII one alone does not. *)
Example accented_query_matches :
  @matchesQuery Js.latin1Lowering "CAFÉ" "Café night" = true ∧
  @matchesQuery Js.asciiLowering "CAFÉ" "Café night" = false.
Proof. split; reflexivity. Qed.

Example includes_samples :
  Js.includes "spring hackathon" "hack" = true ∧
  Js.includes "spring" "" = true ∧
  Js.includes "" "a" = false ∧
  Js.includes "hac" "hack" = false.
Proof. repeat split. Qed.

Example slice_samples :
  Js.slice [1; 2; 3; 4; 5] 0 2 = [1; 2] ∧
  Js.slice [1; 2; 3; 4; 5] 0 9 = [1; 2; 3; 4; 5] ∧
  Js.slice [1; 2; 3; 4; 5] 0 0 = [] ∧
  Js.slice [1; 2; 3; 4; 5] 0 (-1) = [1; 2; 3; 4] ∧
  Js.slice [1; 2; 3; 4; 5] 0 (-7) = [] ∧
  Js.slice [1; 2; 3; 4; 5] (-2) 5 = [4; 5].
Proof. repeat split. Qed.

(** The meetings of the sample store come back newest first. *)
Example meetings_sorted_by_date :
  (λ m, Sys.id (sys m)) <$>
    outcome_value [] (getAllMeetings (storeClient sampleStore) sampleGetTime) =
  ["m2"; "m3"; "m1"].
Proof. reflexivity. Qed.

(** *** What each resolver returns *)

Ltac case_find :=
  match goal with
  | |- context [List.find ?f ?l] => destruct (List.find f l) eqn:?
  end.

Ltac in_list :=
  repeat first [apply list_elem_of_here | apply list_elem_of_further].

Ltac run_resolver :=
  unfold returns, outcome, listed;
  match goal with
  | |- context [getEntries ?c ?s ?q] => destruct (getEntries c s q) as [?e|?response]
  end; reflexivity.

Section ResolverFacts.
Context (env : Env) (client : ContentfulClientApi) (getTime : string → option Z).

Lemma getAllPosts_returns :
  returns (getAllPosts client)
    (listed "blogPost" id (getEntries client SBlogPost allPostsQuery)).
Proof. unfold getAllPosts. run_resolver. Qed.

Lemma getAllMeetings_returns :
  returns (getAllMeetings client getTime)
    (listed "meeting" (Js.sort (byDateDescending getTime))
       (getEntries client SMeeting allMeetingsQuery)).
Proof. unfold getAllMeetings. run_resolver. Qed.

Lemma getUpcomingMeetings_returns :
  returns (getUpcomingMeetings client)
    (listed "upcomingMeeting" id (getEntries client SMeeting upcomingMeetingsQuery)).
Proof. unfold getUpcomingMeetings. run_resolver. Qed.

Lemma getParallaxBanners_returns :
  returns (getParallaxBanners client)
    (listed "parallaxBanner" id (getEntries client SParallaxBanner parallaxBannersQuery)).
Proof. unfold getParallaxBanners. run_resolver. Qed.

Lemma getCurrentEboardMembers_returns :
  returns (getCurrentEboardMembers client)
    (listed "eboardMember" id
       (getEntries client SEboardMember (eboardMembersQuery "current"))).
Proof. unfold getCurrentEboardMembers. run_resolver. Qed.

Lemma getPastEboardMembers_returns :
  returns (getPastEboardMembers client)
    (listed "eboardMember" id
       (getEntries client SEboardMember (eboardMembersQuery "past"))).
Proof. unfold getPastEboardMembers. run_resolver. Qed.

Lemma getAllHackathons_returns :
  returns (getAllHackathons client)
    (listed "hackathon" id (getEntries client SHackathon allHackathonsQuery)).
Proof.
  unfold getAllHackathons, returns, outcome, listed.
  destruct (getEntries client SHackathon allHackathonsQuery) as [e|response];
    [done |].
  simpl. case_bool_decide; reflexivity.
Qed.

Lemma getHackathonsByStatus_returns status :
  returns (getHackathonsByStatus client status)
    (listed "hackathon"
       (List.filter (λ item, bool_decide (itemStatus item = Hackathon.statusName status)))
       (getEntries client SHackathon hackathonPage)).
Proof. unfold getHackathonsByStatus. run_resolver. Qed.

Lemma getAllLandingPageGraphics_returns :
  returns (getAllLandingPageGraphics client)
    (listed "landingPageGraphics" id
       (getEntries client SLandingPageGraphic allGraphicsQuery)).
Proof. unfold getAllLandingPageGraphics. run_resolver. Qed.

Lemma getPostBySlug_returns slug :
  returns (getPostBySlug client slug)
    (match getEntries client SBlogPost (postBySlugQuery slug) with
     | inr response => stamp "blogPost" <$> head (items response)
     | inl _ => None
     end).
Proof.
  unfold getPostBySlug, returns, outcome.
  destruct (getEntries client SBlogPost (postBySlugQuery slug)) as [e|response];
    [done |].
  destruct response as [[|item rest]]; reflexivity.
Qed.

Lemma getHackathonBySlug_returns slug :
  returns (getHackathonBySlug client slug)
    (match getEntries client SHackathon hackathonPage with
     | inr response =>
         stamp "hackathon" <$>
           List.find (λ item, String.eqb (Sys.id (sys item)) slug) (items response)
     | inl _ => None
     end).
Proof.
  unfold getHackathonBySlug, returns, outcome.
  destruct (getEntries client SHackathon hackathonPage) as [e|response]; [done |].
  destruct response as [its]. simpl.
  case_bool_decide; simpl; case_find; reflexivity.
Qed.

Lemma getLandingPageGraphicByTitle_returns title :
  returns (getLandingPageGraphicByTitle env client title)
    (if negb (Js.truthy (CONTENTFUL_SPACE_ID env)) ||
        negb (Js.truthy (CONTENTFUL_ACCESS_TOKEN env))
     then None
     else match getEntries client SLandingPageGraphic (graphicByTitleQuery title) with
          | inr response => modifiedItem <$> head (items response)
          | inl _ => None
          end).
Proof.
  unfold getLandingPageGraphicByTitle, returns, outcome.
  destruct (negb (Js.truthy (CONTENTFUL_SPACE_ID env)) ||
            negb (Js.truthy (CONTENTFUL_ACCESS_TOKEN env))); [done |].
  destruct (getEntries client SLandingPageGraphic (graphicByTitleQuery title))
    as [e|response]; [done |].
  destruct response as [[|item rest]]; [reflexivity |].
  simpl. unfold imageUrl.
  repeat (destruct (_ && _); simpl); reflexivity.
Qed.

End ResolverFacts.

(** *** Fail-open resolvers *)

Ltac fail_open L :=
  split;
  [ eexists; apply L
  | let e := fresh "e" in
    let He := fresh "He" in
    intros e He; generalize L; unfold listed; rewrite He;
    try (destruct (negb _ || negb _)); done ].

(** C1: every resolver returns whatever the client does, and when the remote
    call behind it rejects, a listing resolver returns the empty array and a
    single-entity lookup returns [null]. *)
Theorem resolvers_total_and_fail_open
    (env : Env) (client : ContentfulClientApi) (getTime : string → option Z)
    (slug title : string) (status : Hackathon.Status) :
  failOpen (getAllPosts client) (getEntries client SBlogPost allPostsQuery) [] ∧
  failOpen (getAllMeetings client getTime) (getEntries client SMeeting allMeetingsQuery) [] ∧
  failOpen (getUpcomingMeetings client)
    (getEntries client SMeeting upcomingMeetingsQuery) [] ∧
  failOpen (getCurrentEboardMembers client)
    (getEntries client SEboardMember (eboardMembersQuery "current")) [] ∧
  failOpen (getPastEboardMembers client)
    (getEntries client SEboardMember (eboardMembersQuery "past")) [] ∧
  failOpen (getAllHackathons client) (getEntries client SHackathon allHackathonsQuery) [] ∧
  failOpen (getHackathonsByStatus client status)
    (getEntries client SHackathon hackathonPage) [] ∧
  failOpen (getAllLandingPageGraphics client)
    (getEntries client SLandingPageGraphic allGraphicsQuery) [] ∧
  failOpen (getParallaxBanners client)
    (getEntries client SParallaxBanner parallaxBannersQuery) [] ∧
  failOpen (getPostBySlug client slug)
    (getEntries client SBlogPost (postBySlugQuery slug)) None ∧
  failOpen (getHackathonBySlug client slug)
    (getEntries client SHackathon hackathonPage) None ∧
  failOpen (getLandingPageGraphicByTitle env client title)
    (getEntries client SLandingPageGraphic (graphicByTitleQuery title)) None.
Proof.
  repeat split_and.
  - fail_open (getAllPosts_returns client).
  - fail_open (getAllMeetings_returns client getTime).
  - fail_open (getUpcomingMeetings_returns client).
  - fail_open (getCurrentEboardMembers_returns client).
  - fail_open (getPastEboardMembers_returns client).
  - fail_open (getAllHackathons_returns client).
  - fail_open (getHackathonsByStatus_returns client status).
  - fail_open (getAllLandingPageGraphics_returns client).
  - fail_open (getParallaxBanners_returns client).
  - fail_open (getPostBySlug_returns client slug).
  - fail_open (getHackathonBySlug_returns client slug).
  - fail_open (getLandingPageGraphicByTitle_returns env client title).
Qed.

(** Against a store that rejects every call, a listing and a lookup. *)
Lemma resolvers_total_and_fail_open_witness :
  returns (getAllMeetings (failingClient (ErrorObj "ECONNRESET")) sampleGetTime) [] ∧
  returns (getHackathonBySlug (failingClient (ErrorObj "ECONNRESET")) "h1") None.
Proof.
  pose proof (resolvers_total_and_fail_open sampleEnv
                (failingClient (ErrorObj "ECONNRESET")) sampleGetTime "h1" "hero"
                Hackathon.past) as H.
  split.
  - apply (proj2 (proj1 (proj2 H)) (ErrorObj "ECONNRESET")). reflexivity.
  - destruct H as (_ & _ & _ & _ & _ & _ & _ & _ & _ & _ & H & _).
    apply (proj2 H (ErrorObj "ECONNRESET")). reflexivity.
Defined.

(** *** The content type tag *)

Lemma listed_stamped {F} ct (arrange : list (Entry F) → list (Entry F)) call :
  Forall (λ r, contentTypeId r = Some ct) (listed ct arrange call).
Proof.
  destruct call as [e|response]; simpl; [constructor |].
  apply Forall_fmap, Forall_true. done.
Qed.

Ltac all_stamped L := eexists; split; [apply L | apply listed_stamped].

(** C3: whatever a resolver returns is tagged with the content type that
    resolver asked for, and the tag is the resolver's own: it replaces the
    one a raw record may carry. *)
Theorem resolvers_stamp_content_type
    (env : Env) (client : ContentfulClientApi) (getTime : string → option Z)
    (slug title : string) (status : Hackathon.Status) :
  allStamped "blogPost" (getAllPosts client) ∧
  oneStamped "blogPost" (getPostBySlug client slug) ∧
  allStamped "meeting" (getAllMeetings client getTime) ∧
  allStamped "upcomingMeeting" (getUpcomingMeetings client) ∧
  allStamped "eboardMember" (getCurrentEboardMembers client) ∧
  allStamped "eboardMember" (getPastEboardMembers client) ∧
  allStamped "hackathon" (getAllHackathons client) ∧
  allStamped "hackathon" (getHackathonsByStatus client status) ∧
  oneStamped "hackathon" (getHackathonBySlug client slug) ∧
  allStamped "landingPageGraphics" (getAllLandingPageGraphics client) ∧
  oneStamped "landingPageGraphics" (getLandingPageGraphicByTitle env client title) ∧
  allStamped "parallaxBanner" (getParallaxBanners client) ∧
  (∀ F (ct : string) (raw : Entry F), contentTypeId (stamp ct raw) = Some ct).
Proof.
  repeat split_and.
  - all_stamped (getAllPosts_returns client).
  - eexists; split; [apply getPostBySlug_returns |].
    intros r. destruct (getEntries _ _ _) as [e|[[|item rest]]]; simpl; [done.. |].
    by intros [= <-].
  - all_stamped (getAllMeetings_returns client getTime).
  - all_stamped (getUpcomingMeetings_returns client).
  - all_stamped (getCurrentEboardMembers_returns client).
  - all_stamped (getPastEboardMembers_returns client).
  - all_stamped (getAllHackathons_returns client).
  - all_stamped (getHackathonsByStatus_returns client status).
  - eexists; split; [apply getHackathonBySlug_returns |].
    intros r. destruct (getEntries _ _ _) as [e|[its]]; simpl; [done |].
    case_find; simpl; [| done]. by intros [= <-].
  - all_stamped (getAllLandingPageGraphics_returns client).
  - eexists; split; [apply getLandingPageGraphicByTitle_returns |].
    intros r. destruct (negb _ || negb _); [done |].
    destruct (getEntries _ _ _) as [e|[[|item rest]]]; simpl; [done.. |].
    by intros [= <-].
  - all_stamped (getParallaxBanners_returns client).
  - done.
Qed.

(** The first post of the sample store arrives tagged ["bogus"] and leaves
    tagged ["blogPost"]. *)
Example raw_tag_is_replaced :
  contentTypeId <$> outcome_value [] (getAllPosts (storeClient sampleStore)) =
  [Some "blogPost"; Some "blogPost"; Some "blogPost"].
Proof. reflexivity. Qed.

(** *** Hackathons by status *)

Section HackathonFacts.
Implicit Types (item : Entry Hackathon.Fields) (status : Hackathon.Status).

Lemma itemStatus_stamp ct item : itemStatus (stamp ct item) = itemStatus item.
Proof. done. Qed.

Lemma stamp_same_status ct item item' :
  stamp ct item' = stamp ct item → itemStatus item' = itemStatus item.
Proof. intros H. by rewrite <- (itemStatus_stamp ct item'), H. Qed.

Lemma statusName_inj status status' :
  Hackathon.statusName status = Hackathon.statusName status' → status = status'.
Proof. by destruct status, status'. Qed.

Lemma stamped_in_partition status item (l : list (Entry Hackathon.Fields)) :
  item ∈ l →
  stamp "hackathon" item ∈ stamp "hackathon" <$> List.filter (hasStatus status) l ↔
  itemStatus item = Hackathon.statusName status.
Proof.
  intros Hin. rewrite list_elem_of_fmap. split.
  - intros (item' & Heq & Hin').
    apply list_elem_of_In, filter_In in Hin' as [_ Hst].
    apply bool_decide_eq_true in Hst.
    by rewrite <- (stamp_same_status _ _ _ (eq_sym Heq)).
  - intros Hst. exists item. split; [done |].
    apply list_elem_of_In, filter_In. split; [by apply list_elem_of_In |].
    by apply bool_decide_eq_true.
Qed.

Lemma filter_cons_status status item (l : list (Entry Hackathon.Fields)) :
  List.filter (hasStatus status) (item :: l) =
  if hasStatus status item
  then item :: List.filter (hasStatus status) l
  else List.filter (hasStatus status) l.
Proof. done. Qed.

Lemma filter_cons_known item (l : list (Entry Hackathon.Fields)) :
  List.filter hasKnownStatus (item :: l) =
  if hasKnownStatus item
  then item :: List.filter hasKnownStatus l
  else List.filter hasKnownStatus l.
Proof. done. Qed.

(** The three answers together are the records of a known status. *)
Lemma partitions_rearrange (l : list (Entry Hackathon.Fields)) :
  List.filter (hasStatus Hackathon.ongoing) l ++
  List.filter (hasStatus Hackathon.upcoming) l ++
  List.filter (hasStatus Hackathon.past) l ≡ₚ List.filter hasKnownStatus l.
Proof.
  induction l as [|item l IH]; [done |].
  rewrite !filter_cons_status, filter_cons_known.
  unfold hasKnownStatus at 1. unfold hasStatus at 1 4 7 10 11 12. simpl.
  destruct (decide (itemStatus item = "ongoing")) as [Ho|Ho];
    [rewrite (bool_decide_eq_true_2 _ Ho) | rewrite (bool_decide_eq_false_2 _ Ho)];
  (destruct (decide (itemStatus item = "upcoming")) as [Hu|Hu];
    [rewrite (bool_decide_eq_true_2 _ Hu) | rewrite (bool_decide_eq_false_2 _ Hu)]);
  (destruct (decide (itemStatus item = "past")) as [Hp|Hp];
    [rewrite (bool_decide_eq_true_2 _ Hp) | rewrite (bool_decide_eq_false_2 _ Hp)]);
  try congruence; simpl.
  - by rewrite IH.
  - by rewrite <- Permutation_middle, IH.
  - by rewrite app_assoc, <- Permutation_middle, <- app_assoc, IH.
  - done.
Qed.

End HackathonFacts.

(** C4, as the code has it: the status lookup sends one query, for
    hackathons, a hundred at most and no filter; it keeps, stamped, the
    fetched records whose status, read as [upcoming] when absent or empty,
    is the one asked for. A fetched record whose status so read is one of
    the three is in the answer for that status and for no other; a record
    with any other status is in none of the three answers; the three
    answers together rearrange the fetched records of a known status. *)
Theorem hackathons_by_status_partition
    (client : ContentfulClientApi) (response : EntryCollection Hackathon.Fields)
    (Hcall : getEntries client SHackathon hackathonPage = inr response) :
  (content_type hackathonPage = "hackathon" ∧ limit hackathonPage = Some 100 ∧
   filters hackathonPage = []) ∧
  (∀ status,
     returns (getHackathonsByStatus client status)
       (stamp "hackathon" <$>
          List.filter (λ item, bool_decide (itemStatus item = Hackathon.statusName status))
                      (items response))) ∧
  (∀ item, Hackathon.status (fields item) = None ∨ Hackathon.status (fields item) = Some "" →
           itemStatus item = "upcoming") ∧
  (∀ item s, Hackathon.status (fields item) = Some s → s ≠ "" → itemStatus item = s) ∧
  (∀ item, item ∈ items response →
     ∀ status v,
       returns (getHackathonsByStatus client status) v →
       (stamp "hackathon" item ∈ v ↔ itemStatus item = Hackathon.statusName status)) ∧
  (∀ item status, item ∈ items response →
     itemStatus item = Hackathon.statusName status →
     ∀ status' v,
       returns (getHackathonsByStatus client status') v →
       (stamp "hackathon" item ∈ v ↔ status' = status)) ∧
  (∀ item, item ∈ items response →
     (∀ status, itemStatus item ≠ Hackathon.statusName status) →
     ∀ status' v,
       returns (getHackathonsByStatus client status') v → stamp "hackathon" item ∉ v) ∧
  (∀ o u p,
     returns (getHackathonsByStatus client Hackathon.ongoing) o →
     returns (getHackathonsByStatus client Hackathon.upcoming) u →
     returns (getHackathonsByStatus client Hackathon.past) p →
     o ++ u ++ p ≡ₚ stamp "hackathon" <$> List.filter hasKnownStatus (items response)) ∧
  (∀ status v,
     returns (getHackathonsByStatus client status) v →
     (length v ≤ length (items response))%nat ∧
     ((length (items response) ≤ 100)%nat → (length v ≤ 100)%nat)).
Proof.
  assert (Hret : ∀ status,
     returns (getHackathonsByStatus client status)
       (stamp "hackathon" <$> List.filter (hasStatus status) (items response))).
  { intros status. generalize (getHackathonsByStatus_returns client status).
    by rewrite Hcall. }
  assert (Hval : ∀ status v, returns (getHackathonsByStatus client status) v →
     v = stamp "hackathon" <$> List.filter (hasStatus status) (items response)).
  { intros status v Hv. specialize (Hret status). unfold returns in *. congruence. }
  repeat split_and; try done.
  - intros item [Hnone|Hempty]; unfold itemStatus; [by rewrite Hnone | by rewrite Hempty].
  - intros item s Hsome Hs. unfold itemStatus. rewrite Hsome. simpl. by destruct s.
  - intros item Hin status v Hv.
    by rewrite (Hval _ _ Hv), stamped_in_partition.
  - intros item status Hin Hst status' v Hv.
    rewrite (Hval _ _ Hv), stamped_in_partition by done. rewrite Hst. split.
    + intros H. symmetry. by apply statusName_inj.
    + by intros ->.
  - intros item Hin Hforeign status' v Hv.
    rewrite (Hval _ _ Hv), stamped_in_partition by done. apply Hforeign.
  - intros o u p Ho Hu Hp.
    rewrite (Hval _ _ Ho), (Hval _ _ Hu), (Hval _ _ Hp), <- !fmap_app.
    by rewrite partitions_rearrange.
  - intros status v Hv. rewrite (Hval _ _ Hv), length_fmap.
    pose proof (List.filter_length_le (hasStatus status) (items response)).
    split; [done | intros; by etrans].
Qed.

(** On the sample store: [h2] has no status and is listed as upcoming. *)
Lemma hackathons_by_status_partition_witness :
  returns (getHackathonsByStatus (storeClient sampleStore) Hackathon.upcoming)
    [stamp "hackathon" (sampleHackathon "h2" "Fall Hackathon" (Some "h1") None)].
Proof.
  exact (proj1 (proj2
    (hackathons_by_status_partition (storeClient sampleStore)
       {| items := store_hackathons sampleStore |} eq_refl)) Hackathon.upcoming).
Defined.

(** C4 as stated fails in its last part: a fetched hackathon whose status
    is ["cancelled"] is in none of the three answers. *)
Lemma cancelled_hackathon_is_in_no_partition :
  let item := rawHackathon "h9" "Autumn Hackathon" (Some "cancelled") in
  let client := storeClient cancelledStore in
  getEntries client SHackathon hackathonPage = inr {| items := [item] |} ∧
  returns (getHackathonsByStatus client Hackathon.ongoing) [] ∧
  returns (getHackathonsByStatus client Hackathon.upcoming) [] ∧
  returns (getHackathonsByStatus client Hackathon.past) [] ∧
  ¬ ∃ status v,
      returns (getHackathonsByStatus client status) v ∧ stamp "hackathon" item ∈ v.
Proof.
  simpl. split_and!; try reflexivity.
  intros (status & v & Hv & Hin).
  destruct status; unfold returns in Hv; injection Hv as <-; by apply elem_of_nil in Hin.
Qed.

(** An empty status counts as upcoming, like an absent one. *)
Example empty_status_is_upcoming :
  returns (getHackathonsByStatus
             (storeClient
                {| store_posts := []; store_meetings := []; store_upcomingMeetings := [];
                   store_banners := []; store_members := [];
                   store_hackathons := [rawHackathon "h8" "Summer Hackathon" (Some "")];
                   store_graphics := [] |})
             Hackathon.upcoming)
    [stamp "hackathon" (rawHackathon "h8" "Summer Hackathon" (Some ""))].
Proof. reflexivity. Qed.

(** *** Hackathon by identifier *)

(** C7: the lookup named after the slug fetches the same page of a hundred
    and returns, stamped, the first record whose [sys.id] is the argument;
    it returns [null] when no identifier is the argument, whatever the
    [slug] fields hold. *)
Theorem hackathon_lookup_matches_identifier
    (client : ContentfulClientApi) (response : EntryCollection Hackathon.Fields)
    (slug : string)
    (Hcall : getEntries client SHackathon hackathonPage = inr response) :
  limit hackathonPage = Some 100 ∧
  returns (getHackathonBySlug client slug)
    (stamp "hackathon" <$>
       List.find (λ item, String.eqb (Sys.id (sys item)) slug) (items response)) ∧
  (∀ r, returns (getHackathonBySlug client slug) (Some r) →
        Sys.id (sys r) = slug ∧
        ∃ item, item ∈ items response ∧ r = stamp "hackathon" item) ∧
  ((∀ item, item ∈ items response → Sys.id (sys item) ≠ slug) →
   returns (getHackathonBySlug client slug) None) ∧
  (∀ item, item ∈ items response → Sys.id (sys item) = slug →
     ∃ r, returns (getHackathonBySlug client slug) (Some r) ∧ Sys.id (sys r) = slug).
Proof.
  assert (Hret : returns (getHackathonBySlug client slug)
    (stamp "hackathon" <$>
       List.find (λ item, String.eqb (Sys.id (sys item)) slug) (items response))).
  { generalize (getHackathonBySlug_returns client slug). by rewrite Hcall. }
  repeat split_and; try done.
  - intros r Hr. unfold returns in *. rewrite Hret in Hr.
    injection Hr as Hr. apply fmap_Some in Hr as (item & Hfound & ->).
    apply find_some in Hfound as [Hin Hid].
    apply String.eqb_eq in Hid. split; [done |].
    eexists; split; [by apply list_elem_of_In | done].
  - intros Hnone. unfold returns in *. rewrite Hret.
    case_find; [| done].
    match goal with H : List.find _ _ = Some _ |- _ => apply find_some in H as [Hin Hid] end.
    apply String.eqb_eq in Hid. by apply list_elem_of_In, Hnone in Hin.
  - intros item Hin Hid. unfold returns in *. rewrite Hret.
    case_find; simpl.
    + match goal with H : List.find _ _ = Some _ |- _ => apply find_some in H as [_ Hid'] end.
      apply String.eqb_eq in Hid'. eauto.
    + apply list_elem_of_In in Hin.
      match goal with H : List.find _ _ = None |- _ =>
        pose proof (find_none _ _ H _ Hin) as Hno end.
      by apply String.eqb_neq in Hno.
Qed.

(** On the sample store nothing is identified by ["spring"], the slug of
    [h1], so the lookup by that slug finds nothing. *)
Lemma hackathon_lookup_matches_identifier_witness :
  returns (getHackathonBySlug (storeClient sampleStore) "spring") None.
Proof.
  exact (proj1 (proj2
    (hackathon_lookup_matches_identifier (storeClient sampleStore)
       {| items := store_hackathons sampleStore |} "spring" eq_refl))).
Defined.

(** The slug of [h2] is ["h1"], yet the lookup of ["h1"] returns the record
    identified by ["h1"]. *)
Example lookup_prefers_identifier_over_slug :
  outcome (getHackathonBySlug (storeClient sampleStore) "h1") =
  inr (Some (stamp "hackathon"
         (sampleHackathon "h1" "Spring Hackathon" (Some "spring") (Some Hackathon.past)))).
Proof. reflexivity. Qed.

(** *** The statistics overview *)

Section StatsFacts.
Context (posts : M (list (Entry BlogPost.Fields))).
Context (meetings : M (list (Entry Meeting.Fields))).
Context (currentEboard pastEboard : M (list (Entry EboardMember.Fields))).
Context (hackathons : M (list (Entry Hackathon.Fields))).
Context (graphics : M (list (Entry LandingPageGraphic.Fields))).
Context (banners : M (list (Entry ParallaxBanner.Fields))).
Context (now : string).

Ltac open_listings :=
  unfold statsOver, anyThrows, throws, returns, outcome;
  destruct posts as [? [?|?]], meetings as [? [?|?]],
    currentEboard as [? [?|?]], pastEboard as [? [?|?]],
    hackathons as [? [?|?]], graphics as [? [?|?]], banners as [? [?|?]];
  simpl.

(** Seven listings in, seven counts out. *)
Lemma statsOver_counts p m c pa h g b :
  returns posts p → returns meetings m →
  returns currentEboard c → returns pastEboard pa →
  returns hackathons h → returns graphics g → returns banners b →
  returns
    (statsOver posts meetings currentEboard pastEboard hackathons graphics banners now)
    (StatsText "Contentful CMS Statistics"
       {| count_blogPosts := length p; count_meetings := length m;
          count_currentEboardMembers := length c;
          count_pastEboardMembers := length pa;
          count_hackathons := length h; count_landingPageGraphics := length g;
          count_parallaxBanners := length b |}
       now).
Proof. open_listings; intros; by simplify_eq. Qed.

(** One rejection among the seven and the text is an error message. *)
Lemma statsOver_guard :
  (∃ e, anyThrows posts meetings currentEboard pastEboard hackathons graphics banners e) →
  ∃ e, anyThrows posts meetings currentEboard pastEboard hackathons graphics banners e ∧
       returns
         (statsOver posts meetings currentEboard pastEboard hackathons graphics banners now)
         (StatsError ("Error fetching Contentful statistics: " +:+ errorText e)).
Proof.
  open_listings; intros [e0 H];
    try (exfalso; clear -H; intuition congruence);
    (eexists; split; [| reflexivity]; clear; tauto).
Qed.

End StatsFacts.

(** C8: the overview awaits the seven full listings together and reports
    the length of each with the time stamp; and should one of the awaited
    listings reject, the whole text is one error message, with no counts. *)
Theorem stats_counts_or_single_error
    (client : ContentfulClientApi) (getTime : string → option Z) (now : string) :
  (∃ p m c pa h g b,
     returns (getAllPosts client) p ∧
     returns (getAllMeetings client getTime) m ∧
     returns (getCurrentEboardMembers client) c ∧
     returns (getPastEboardMembers client) pa ∧
     returns (getAllHackathons client) h ∧
     returns (getAllLandingPageGraphics client) g ∧
     returns (getParallaxBanners client) b ∧
     returns (contentful_stats client getTime now)
       (StatsText "Contentful CMS Statistics"
          {| count_blogPosts := length p; count_meetings := length m;
             count_currentEboardMembers := length c;
             count_pastEboardMembers := length pa;
             count_hackathons := length h; count_landingPageGraphics := length g;
             count_parallaxBanners := length b |}
          now)) ∧
  (∀ posts meetings currentEboard pastEboard hackathons graphics banners,
     (∃ e, anyThrows posts meetings currentEboard pastEboard hackathons graphics banners e) →
     ∃ e, anyThrows posts meetings currentEboard pastEboard hackathons graphics banners e ∧
          returns (statsOver posts meetings currentEboard pastEboard hackathons
                     graphics banners now)
            (StatsError ("Error fetching Contentful statistics: " +:+ errorText e))).
Proof.
  split.
  - do 7 eexists. repeat split_and.
    + apply getAllPosts_returns.
    + apply getAllMeetings_returns.
    + apply getCurrentEboardMembers_returns.
    + apply getPastEboardMembers_returns.
    + apply getAllHackathons_returns.
    + apply getAllLandingPageGraphics_returns.
    + apply getParallaxBanners_returns.
    + apply statsOver_counts;
        [ apply getAllPosts_returns | apply getAllMeetings_returns
        | apply getCurrentEboardMembers_returns | apply getPastEboardMembers_returns
        | apply getAllHackathons_returns | apply getAllLandingPageGraphics_returns
        | apply getParallaxBanners_returns ].
  - intros. by apply statsOver_guard.
Qed.

(** A hackathon listing that rejects turns the overview into its message. *)
Lemma stats_counts_or_single_error_witness :
  ∃ e,
    anyThrows (mret []) (mret []) (mret []) (mret [])
      (throw (ErrorObj "timeout")) (mret []) (mret []) e ∧
    returns (statsOver (mret []) (mret []) (mret []) (mret [])
               (throw (ErrorObj "timeout")) (mret []) (mret []) "2024-05-01T00:00:00.000Z")
      (StatsError ("Error fetching Contentful statistics: " +:+ errorText e)).
Proof.
  apply (proj2 (stats_counts_or_single_error dummyClient sampleGetTime
                  "2024-05-01T00:00:00.000Z")).
  exists (ErrorObj "timeout"). unfold anyThrows, throws. simpl. tauto.
Defined.

Example stats_of_sample_store :
  outcome (contentful_stats (storeClient sampleStore) sampleGetTime "2024-05-01T00:00:00.000Z") =
  inr (StatsText "Contentful CMS Statistics"
         {| count_blogPosts := 3; count_meetings := 3;
            count_currentEboardMembers := 2; count_pastEboardMembers := 1;
            count_hackathons := 3; count_landingPageGraphics := 1;
            count_parallaxBanners := 1 |}
         "2024-05-01T00:00:00.000Z").
Proof. reflexivity. Qed.

(** *** Client initialisation *)

Section InitFacts.
Context (env : Env).
Context (createClient : string → string → Thrown + ContentfulClientApi).

Lemma truthy_false s : Js.truthy s = false ↔ s = "".
Proof. by destruct s. Qed.

(** The initialiser settles on a client whatever happens. *)
Lemma initClient_total : ∃ client, returns (initClient env createClient) client.
Proof.
  unfold initClient, returns, outcome.
  destruct (Js.truthy (CONTENTFUL_SPACE_ID env)),
           (Js.truthy (CONTENTFUL_ACCESS_TOKEN env)); simpl; eauto.
  destruct (createClient _ _); simpl; eauto.
Qed.

Lemma initClient_created client :
  CONTENTFUL_SPACE_ID env ≠ "" → CONTENTFUL_ACCESS_TOKEN env ≠ "" →
  createClient (CONTENTFUL_SPACE_ID env) (CONTENTFUL_ACCESS_TOKEN env) = inr client →
  returns (initClient env createClient) client.
Proof.
  intros Hs Ht Hc. unfold initClient, returns, outcome.
  destruct (Js.truthy (CONTENTFUL_SPACE_ID env)) eqn:Es;
    [| by apply truthy_false in Es].
  destruct (Js.truthy (CONTENTFUL_ACCESS_TOKEN env)) eqn:Et;
    [| by apply truthy_false in Et].
  simpl. by rewrite Hc.
Qed.

End InitFacts.

(** Under the fallback client every resolver comes back empty-handed. *)
Lemma resolvers_on_dummyClient (env : Env) (getTime : string → option Z)
    (slug title : string) (status : Hackathon.Status) :
  returns (getAllPosts dummyClient) [] ∧
  returns (getPostBySlug dummyClient slug) None ∧
  returns (getAllMeetings dummyClient getTime) [] ∧
  returns (getUpcomingMeetings dummyClient) [] ∧
  returns (getParallaxBanners dummyClient) [] ∧
  returns (getCurrentEboardMembers dummyClient) [] ∧
  returns (getPastEboardMembers dummyClient) [] ∧
  returns (getAllHackathons dummyClient) [] ∧
  returns (getHackathonsByStatus dummyClient status) [] ∧
  returns (getHackathonBySlug dummyClient slug) None ∧
  returns (getLandingPageGraphicByTitle env dummyClient title) None ∧
  returns (getAllLandingPageGraphics dummyClient) [].
Proof.
  repeat split_and; try reflexivity.
  generalize (getLandingPageGraphicByTitle_returns env dummyClient title).
  by destruct (negb _ || negb _).
Qed.

(** C2, as the code has it: with a credential that is the empty string, or
    a client constructor that throws, the initialiser does not throw; it
    writes an error to the console and settles on the fallback client,
    whose [getEntries] resolves with no items, so that every resolver
    returns its empty result. With an empty credential the console holds
    the missing-variables warning, twice, and then the error; with both
    credentials present and a constructor that throws it holds the error
    and nothing else, so no warning. A credential variable that is not set
    never reaches the initialiser: the environment module refuses to
    load. *)
Theorem client_init_falls_back
    (env : Env) (createClient : string → string → Thrown + ContentfulClientApi)
    (Hdegraded :
       CONTENTFUL_SPACE_ID env = "" ∨ CONTENTFUL_ACCESS_TOKEN env = "" ∨
       ∃ e, createClient (CONTENTFUL_SPACE_ID env) (CONTENTFUL_ACCESS_TOKEN env) = inl e) :
  returns (initClient env createClient) dummyClient ∧
  (∃ entry, entry ∈ logs (initClient env createClient) ∧ level entry = LError) ∧
  (CONTENTFUL_SPACE_ID env = "" ∨ CONTENTFUL_ACCESS_TOKEN env = "" →
   {| level := LWarn; message := missingCredentialsWarning |}
     ∈ logs (initClient env createClient)) ∧
  (CONTENTFUL_SPACE_ID env = "" ∨ CONTENTFUL_ACCESS_TOKEN env = "" →
   logs (initClient env createClient) =
     [ {| level := LWarn; message := missingCredentialsWarning |};
       {| level := LWarn; message := missingCredentialsWarning |};
       {| level := LError;
          message := "Error initializing Contentful client: " +:+
                     "Contentful credentials are missing" |} ]) ∧
  (CONTENTFUL_SPACE_ID env ≠ "" → CONTENTFUL_ACCESS_TOKEN env ≠ "" →
   ∀ e, createClient (CONTENTFUL_SPACE_ID env) (CONTENTFUL_ACCESS_TOKEN env) = inl e →
     logs (initClient env createClient) =
       [ {| level := LError;
            message := "Error initializing Contentful client: " +:+ errorText e |} ] ∧
     ¬ ∃ entry, entry ∈ logs (initClient env createClient) ∧ level entry = LWarn) ∧
  (∀ raw, envSchema_parse raw = inr env →
     returns (loadModules raw createClient)
       {| loaded_env := env; loaded_client := dummyClient |}) ∧
  (∀ raw,
     process_CONTENTFUL_SPACE_ID raw = None ∨ process_CONTENTFUL_ACCESS_TOKEN raw = None →
     ∃ e, throws (loadModules raw createClient) e) ∧
  (∀ s q, getEntries dummyClient s q = inr {| items := [] |}) ∧
  (∀ getTime slug title status,
     returns (getAllPosts dummyClient) [] ∧
     returns (getPostBySlug dummyClient slug) None ∧
     returns (getAllMeetings dummyClient getTime) [] ∧
     returns (getUpcomingMeetings dummyClient) [] ∧
     returns (getParallaxBanners dummyClient) [] ∧
     returns (getCurrentEboardMembers dummyClient) [] ∧
     returns (getPastEboardMembers dummyClient) [] ∧
     returns (getAllHackathons dummyClient) [] ∧
     returns (getHackathonsByStatus dummyClient status) [] ∧
     returns (getHackathonBySlug dummyClient slug) None ∧
     returns (getLandingPageGraphicByTitle env dummyClient title) None ∧
     returns (getAllLandingPageGraphics dummyClient) []).
Proof.
  assert (Hrun :
    returns (initClient env createClient) dummyClient ∧
    (∃ entry, entry ∈ logs (initClient env createClient) ∧ level entry = LError) ∧
    (CONTENTFUL_SPACE_ID env = "" ∨ CONTENTFUL_ACCESS_TOKEN env = "" →
     {| level := LWarn; message := missingCredentialsWarning |}
       ∈ logs (initClient env createClient))).
  { unfold initClient, returns, outcome, logs.
    destruct (Js.truthy (CONTENTFUL_SPACE_ID env)) eqn:Es,
             (Js.truthy (CONTENTFUL_ACCESS_TOKEN env)) eqn:Et; simpl.
    - destruct Hdegraded as [H|[H|[e He]]].
      + rewrite H in Es. discriminate.
      + rewrite H in Et. discriminate.
      + rewrite He. simpl. split_and!; [done | | ].
        * eexists; split; [apply list_elem_of_here | done].
        * intros [H|H]; [rewrite H in Es | rewrite H in Et]; discriminate.
    - split_and!; [done | | intros _; apply list_elem_of_here].
      eexists; split; [do 2 apply list_elem_of_further; apply list_elem_of_here | done].
    - split_and!; [done | | intros _; apply list_elem_of_here].
      eexists; split; [do 2 apply list_elem_of_further; apply list_elem_of_here | done].
    - split_and!; [done | | intros _; apply list_elem_of_here].
      eexists; split; [do 2 apply list_elem_of_further; apply list_elem_of_here | done]. }
  destruct Hrun as (Hret & Herr & Hwarn).
  split_and!; try done.
  - intros Hempty. unfold initClient, logs.
    destruct (Js.truthy (CONTENTFUL_SPACE_ID env)) eqn:Es,
             (Js.truthy (CONTENTFUL_ACCESS_TOKEN env)) eqn:Et; simpl; try reflexivity.
    destruct Hempty as [H|H]; [rewrite H in Es | rewrite H in Et]; discriminate.
  - intros Hs Ht e He.
    assert (Hlogs : logs (initClient env createClient) =
      [ {| level := LError;
           message := "Error initializing Contentful client: " +:+ errorText e |} ]).
    { unfold initClient, logs.
      destruct (Js.truthy (CONTENTFUL_SPACE_ID env)) eqn:Es;
        [| by apply truthy_false in Es].
      destruct (Js.truthy (CONTENTFUL_ACCESS_TOKEN env)) eqn:Et;
        [| by apply truthy_false in Et].
      simpl. rewrite He. reflexivity. }
    split; [exact Hlogs |].
    rewrite Hlogs. intros (entry & Hin & Hlevel).
    apply list_elem_of_singleton in Hin. subst entry. discriminate Hlevel.
  - intros raw Hparse. unfold loadModules, validateEnv, returns, outcome in *.
    rewrite Hparse. simpl.
    destruct (initClient env createClient) as [l r]. simpl in *. by subst r.
  - intros raw Hunset. unfold loadModules, validateEnv, throws, outcome, envSchema_parse.
    destruct Hunset as [-> | ->];
      destruct (process_REDIS_URL raw); try destruct (process_CONTENTFUL_SPACE_ID raw);
      try destruct (process_CONTENTFUL_ACCESS_TOKEN raw); simpl; eauto.
  - intros. apply resolvers_on_dummyClient.
Qed.

(** Empty credentials in the process environment: the modules load, and
    with the fallback client. *)
Lemma client_init_falls_back_witness :
  returns
    (loadModules
       {| process_REDIS_URL := Some "redis://localhost";
          process_CONTENTFUL_SPACE_ID := Some "";
          process_CONTENTFUL_ACCESS_TOKEN := Some "" |}
       (λ _ _, inr (storeClient sampleStore)))
    {| loaded_env := {| REDIS_URL := "redis://localhost";
                        CONTENTFUL_SPACE_ID := "";
                        CONTENTFUL_ACCESS_TOKEN := "" |};
       loaded_client := dummyClient |}.
Proof.
  refine (proj1 (proj2 (proj2 (proj2 (proj2 (proj2
    (client_init_falls_back
       {| REDIS_URL := "redis://localhost"; CONTENTFUL_SPACE_ID := "";
          CONTENTFUL_ACCESS_TOKEN := "" |}
       (λ _ _, inr (storeClient sampleStore)) _))))))
    {| process_REDIS_URL := Some "redis://localhost";
       process_CONTENTFUL_SPACE_ID := Some "";
       process_CONTENTFUL_ACCESS_TOKEN := Some "" |} eq_refl).
  left. reflexivity.
Defined.

(** C2 as stated fails twice. For a credential that is missing: with
    [CONTENTFUL_SPACE_ID] not set the environment module throws while
    loading, no client is installed and no resolver can be called. For
    the warning: with both credentials present and a constructor that
    throws, the fallback client is installed and the console holds one
    error and no warning. *)
Lemma unset_credential_aborts_and_failed_constructor_warns_nothing :
  let raw := {| process_REDIS_URL := Some "redis://localhost";
                process_CONTENTFUL_SPACE_ID := None;
                process_CONTENTFUL_ACCESS_TOKEN := Some "token" |} in
  let createClient := λ _ _ : string, inr (storeClient sampleStore) in
  let env := {| REDIS_URL := "redis://localhost";
                CONTENTFUL_SPACE_ID := "space";
                CONTENTFUL_ACCESS_TOKEN := "token" |} in
  let failing := λ _ _ : string, inl (ErrorObj "Expected parameter space")
                 : Thrown + ContentfulClientApi in
  (throws (loadModules raw createClient)
     (ErrorObj ("❌ Invalid environment variables: CONTENTFUL_SPACE_ID" +:+
                ". Please check your .env file")) ∧
   ¬ ∃ loaded, returns (loadModules raw createClient) loaded) ∧
  (returns (initClient env failing) dummyClient ∧
   logs (initClient env failing) =
     [ {| level := LError;
          message := "Error initializing Contentful client: Expected parameter space" |} ] ∧
   ¬ ∃ entry, entry ∈ logs (initClient env failing) ∧ level entry = LWarn).
Proof.
  split.
  - split; [reflexivity |]. intros [loaded H]. discriminate H.
  - split_and!; [reflexivity | reflexivity |].
    intros (entry & Hin & Hlevel).
    apply list_elem_of_singleton in Hin. subst entry. discriminate Hlevel.
Qed.

(** *** Landing page graphic by title *)

(** C9, as the code has it: the returned record's [image] is the raw
    [image] when there is one, else the raw [graphic], else absent, whether
    or not a file URL can be read from them; the URL the lookup settles on
    ([image]'s before [graphic]'s, none when neither has one) goes to the
    console and is not part of the record. *)
Theorem graphic_image_backfill
    (env : Env) (client : ContentfulClientApi) (title : string)
    (response : EntryCollection LandingPageGraphic.Fields)
    (item : Entry LandingPageGraphic.Fields) (rest : list (Entry LandingPageGraphic.Fields))
    (Hspace : CONTENTFUL_SPACE_ID env ≠ "")
    (Htoken : CONTENTFUL_ACCESS_TOKEN env ≠ "")
    (Hcall : getEntries client SLandingPageGraphic (graphicByTitleQuery title) = inr response)
    (Hitems : items response = item :: rest) :
  let raw := fields item in
  ∃ r,
    returns (getLandingPageGraphicByTitle env client title) (Some r) ∧
    sys r = sys item ∧
    LandingPageGraphic.graphic (fields r) = LandingPageGraphic.graphic raw ∧
    (LandingPageGraphic.image raw = None →
     LandingPageGraphic.image (fields r) = LandingPageGraphic.graphic raw) ∧
    (∀ image, LandingPageGraphic.image raw = Some image →
     LandingPageGraphic.image (fields r) = Some image) ∧
    (LandingPageGraphic.image raw = None → LandingPageGraphic.graphic raw = None →
     LandingPageGraphic.image (fields r) = None) ∧
    (truthyOpt (Asset.fileUrl (LandingPageGraphic.image raw)) = true →
     returns (imageUrl title item) (Asset.fileUrl (LandingPageGraphic.image raw))) ∧
    (truthyOpt (Asset.fileUrl (LandingPageGraphic.image raw)) = false →
     truthyOpt (Asset.fileUrl (LandingPageGraphic.graphic raw)) = true →
     returns (imageUrl title item) (Asset.fileUrl (LandingPageGraphic.graphic raw))) ∧
    (truthyOpt (Asset.fileUrl (LandingPageGraphic.image raw)) = false →
     truthyOpt (Asset.fileUrl (LandingPageGraphic.graphic raw)) = false →
     returns (imageUrl title item) None).
Proof.
  intros raw. exists (modifiedItem item). split_and!.
  - generalize (getLandingPageGraphicByTitle_returns env client title).
    destruct response as [its]. simpl in Hitems. subst its. rewrite Hcall.
    destruct (Js.truthy (CONTENTFUL_SPACE_ID env)) eqn:Es;
      [| by apply truthy_false in Es].
    destruct (Js.truthy (CONTENTFUL_ACCESS_TOKEN env)) eqn:Et;
      [| by apply truthy_false in Et].
    done.
  - done.
  - done.
  - intros Himage. unfold modifiedItem. simpl. fold raw. rewrite Himage.
    case_bool_decide as Hg; [done |].
    destruct (LandingPageGraphic.graphic raw); [| done].
    by destruct Hg.
  - intros image Himage. unfold modifiedItem. simpl. fold raw. by rewrite Himage.
  - intros Himage Hgraphic. unfold modifiedItem. simpl. fold raw.
    rewrite Himage, Hgraphic. by case_bool_decide.
  - intros Hurl. unfold imageUrl, returns, outcome. fold raw. rewrite Hurl.
    case_bool_decide as Hi; [done |].
    destruct (LandingPageGraphic.image raw); [by destruct Hi | done].
  - intros Hno Hurl. unfold imageUrl, returns, outcome. fold raw.
    rewrite Hno, Hurl, andb_false_r.
    case_bool_decide as Hg; [done |].
    destruct (LandingPageGraphic.graphic raw); [by destruct Hg | done].
  - intros Hno Hno'. unfold imageUrl, returns, outcome. fold raw.
    by rewrite Hno, Hno', !andb_false_r.
Qed.

(** The graphic of the sample store has only a [graphic] field, which the
    lookup returns as [image] too. *)
Lemma graphic_image_backfill_witness :
  ∃ r,
    returns (getLandingPageGraphicByTitle sampleEnv (storeClient sampleStore) "hero") (Some r) ∧
    LandingPageGraphic.image (fields r) = Some (sampleAsset (Some "//img/hero.png")).
Proof.
  destruct (graphic_image_backfill sampleEnv (storeClient sampleStore) "hero"
              {| items := store_graphics sampleStore |}
              (sampleGraphic "g1" "hero" None (Some (sampleAsset (Some "//img/hero.png"))))
              [] ltac:(discriminate) ltac:(discriminate) eq_refl eq_refl)
    as (r & Hr & _ & _ & Himage & _).
  exists r. split; [exact Hr | exact (Himage eq_refl)].
Defined.

(** C9 as stated fails in its last part: a record whose only asset is a
    [graphic] with an empty file URL has no URL to settle on, and still the
    returned [image] is that graphic, not absent. *)
Lemma graphic_without_url_is_still_backfilled :
  let graphic := sampleAsset (Some "") in
  let item := sampleGraphic "g2" "footer" None (Some graphic) in
  let client := storeClient
    {| store_posts := []; store_meetings := []; store_upcomingMeetings := [];
       store_banners := []; store_members := []; store_hackathons := [];
       store_graphics := [item] |} in
  truthyOpt (Asset.fileUrl (LandingPageGraphic.image (fields item))) = false ∧
  truthyOpt (Asset.fileUrl (LandingPageGraphic.graphic (fields item))) = false ∧
  returns (imageUrl "footer" item) None ∧
  ∃ r, returns (getLandingPageGraphicByTitle sampleEnv client "footer") (Some r) ∧
       LandingPageGraphic.image (fields r) = Some graphic ∧
       LandingPageGraphic.image (fields r) ≠ None.
Proof.
  simpl. split_and!; try reflexivity.
  eexists. split_and!; [reflexivity | reflexivity | discriminate].
Qed.

(** *** The search tool *)

Section SearchFacts.
Context {lowering : Js.Lowering}.
Context (client : ContentfulClientApi) (getTime : string → option Z).

Lemma outcome_value_returns {A} (d : A) (m : M A) v :
  returns m v → outcome_value d m = v.
Proof. unfold returns, outcome_value. by intros ->. Qed.

(** The search never fails, and its envelope is the closed form. *)
Lemma search_content_returns q cts limit :
  returns (search_content client getTime q cts limit)
    (SearchText
       {| searchQuery := q;
          contentTypes := default defaultContentTypes cts;
          totalResults :=
            sumLengths (resultsFor client getTime q
                          (default defaultContentTypes cts) (default 5 limit));
          results := resultsFor client getTime q
                       (default defaultContentTypes cts) (default 5 limit) |}).
Proof.
  unfold search_content, resultsFor, returns, outcome, outcome_value.
  generalize (default defaultContentTypes cts); intros types.
  pose proof (getAllPosts_returns client) as Hp.
  pose proof (getAllMeetings_returns client getTime) as Hm.
  pose proof (getCurrentEboardMembers_returns client) as Hc.
  pose proof (getPastEboardMembers_returns client) as Hpa.
  pose proof (getAllHackathons_returns client) as Hh.
  unfold returns, outcome in *.
  destruct (getAllPosts client) as [lp rp],
           (getAllMeetings client getTime) as [lm rm],
           (getCurrentEboardMembers client) as [lc rc],
           (getPastEboardMembers client) as [lpa rpa],
           (getAllHackathons client) as [lh rh].
  simpl in *. subst rp rm rc rpa rh.
  unfold addIf.
  destruct (bool_decide (blogPost ∈ types)),
           (bool_decide (meeting ∈ types)),
           (bool_decide (eboardMember ∈ types)),
           (bool_decide (hackathon ∈ types)); reflexivity.
Qed.

Lemma sumLengths_insert (m : gmap string (list SearchHit)) key hits :
  m !! key = None →
  sumLengths (<[key := hits]> m) = (sumLengths m + length hits)%nat.
Proof.
  intros Hfresh. unfold sumLengths.
  rewrite map_fold_insert_L; [done | intros; lia | done].
Qed.

Lemma sumLengths_addIf cond (m : gmap string (list SearchHit)) key hits :
  m !! key = None →
  sumLengths (addIf cond key hits m) =
  (sumLengths m + if cond then length hits else 0)%nat.
Proof.
  intros Hfresh. destruct cond; simpl; [by apply sumLengths_insert | lia].
Qed.

Lemma lookup_addIf cond (m : gmap string (list SearchHit)) key hits key' :
  addIf cond key hits m !! key' =
  if cond && bool_decide (key = key') then Some hits else m !! key'.
Proof.
  destruct cond; simpl; [| done].
  case_bool_decide as Hk; [subst; by rewrite lookup_insert_eq |].
  by rewrite lookup_insert_ne.
Qed.

Lemma lookup_resultsFor q types lim key :
  resultsFor client getTime q types lim !! key =
  if bool_decide (hackathon ∈ types) && bool_decide ("hackathons" = key)
  then Some (searchIn (hackathonMatches q) hackathonHit lim
               (outcome_value [] (getAllHackathons client)))
  else if bool_decide (eboardMember ∈ types) && bool_decide ("eboardMembers" = key)
  then Some (searchIn (memberMatches q) memberHit lim
               (outcome_value [] (getCurrentEboardMembers client) ++
                outcome_value [] (getPastEboardMembers client)))
  else if bool_decide (meeting ∈ types) && bool_decide ("meetings" = key)
  then Some (searchIn (meetingMatches q) meetingHit lim
               (outcome_value [] (getAllMeetings client getTime)))
  else if bool_decide (blogPost ∈ types) && bool_decide ("blogPosts" = key)
  then Some (searchIn (postMatches q) postHit lim
               (outcome_value [] (getAllPosts client)))
  else None.
Proof. unfold resultsFor. by rewrite !lookup_addIf, lookup_empty. Qed.

(** The total is the sum over the four keys. *)
Lemma sumLengths_resultsFor q types lim :
  let R := resultsFor client getTime q types lim in
  sumLengths R =
  (length (default [] (R !! "blogPosts")) + length (default [] (R !! "meetings")) +
   length (default [] (R !! "eboardMembers")) +
   length (default [] (R !! "hackathons")))%nat.
Proof.
  intros R. subst R. rewrite !lookup_resultsFor.
  unfold resultsFor.
  rewrite !sumLengths_addIf by (by rewrite ?lookup_addIf, ?andb_false_r, ?lookup_empty).
  replace (sumLengths ∅) with 0%nat by (unfold sumLengths; by rewrite map_fold_empty).
  destruct (bool_decide (blogPost ∈ types)),
           (bool_decide (meeting ∈ types)),
           (bool_decide (eboardMember ∈ types)),
           (bool_decide (hackathon ∈ types)); simpl; lia.
Qed.

End SearchFacts.

Section SearchPerType.
Context {F : Type} (matches : Entry F → bool) (hit : Entry F → SearchHit).




End SearchPerType.

Section SearchKeys.
Context {lowering : Js.Lowering}.
Context (client : ContentfulClientApi) (getTime : string → option Z).
Context (q : string) (types : list ContentTypeName) (lim : Z).

Ltac settle_keys :=
  rewrite lookup_resultsFor;
  destruct (bool_decide (blogPost ∈ types)), (bool_decide (meeting ∈ types)),
           (bool_decide (eboardMember ∈ types)), (bool_decide (hackathon ∈ types));
  simpl; repeat (case_bool_decide; [discriminate |]); try done;
  repeat (case_bool_decide; [| done]); done.

Lemma blogPosts_key :
  resultsFor client getTime q types lim !! "blogPosts" =
  if bool_decide (blogPost ∈ types)
  then Some (searchIn (postMatches q) postHit lim (outcome_value [] (getAllPosts client)))
  else None.
Proof. settle_keys. Qed.

Lemma meetings_key :
  resultsFor client getTime q types lim !! "meetings" =
  if bool_decide (meeting ∈ types)
  then Some (searchIn (meetingMatches q) meetingHit lim
               (outcome_value [] (getAllMeetings client getTime)))
  else None.
Proof. settle_keys. Qed.

Lemma eboardMembers_key :
  resultsFor client getTime q types lim !! "eboardMembers" =
  if bool_decide (eboardMember ∈ types)
  then Some (searchIn (memberMatches q) memberHit lim
               (outcome_value [] (getCurrentEboardMembers client) ++
                outcome_value [] (getPastEboardMembers client)))
  else None.
Proof. settle_keys. Qed.

Lemma hackathons_key :
  resultsFor client getTime q types lim !! "hackathons" =
  if bool_decide (hackathon ∈ types)
  then Some (searchIn (hackathonMatches q) hackathonHit lim
               (outcome_value [] (getAllHackathons client)))
  else None.
Proof. settle_keys. Qed.

(** No other key is ever set. *)
Lemma other_keys key :
  is_Some (resultsFor client getTime q types lim !! key) →
  key ∈ ["blogPosts"; "meetings"; "eboardMembers"; "hackathons"].
Proof.
  rewrite lookup_resultsFor.
  repeat match goal with
  | |- context [_ && bool_decide (?k = key)] =>
      destruct (decide (k = key)) as [<-|?];
      [intros _; in_list | rewrite (bool_decide_eq_false_2 (k = key)) by done;
                              rewrite andb_false_r]
  end.
  by intros [? ?].
Qed.

End SearchKeys.

Section MatchFacts.
Context {lowering : Js.Lowering}.
Context (q : string).





End MatchFacts.


Section Sample_search_keeps_first_matches_witness.
Existing Instance Js.asciiLowering.


End Sample_search_keeps_first_matches_witness.

Section Sample_negative_limit_is_not_a_cap.
Existing Instance Js.asciiLowering.


End Sample_negative_limit_is_not_a_cap.

Section SearchScope.
Context {lowering : Js.Lowering}.
Context (client : ContentfulClientApi) (getTime : string → option Z).
Context (q : string) (lim : Z).

Ltac not_a_key :=
  let H := fresh in
  intros H; repeat (apply elem_of_cons in H as [H|H]; [discriminate H |]);
  by apply elem_of_nil in H.

Lemma unsearched_keys types key :
  key ∉ ["blogPosts"; "meetings"; "eboardMembers"; "hackathons"] →
  resultsFor client getTime q types lim !! key = None.
Proof.
  intros Hkey. apply eq_None_not_Some. intros H. by apply other_keys in H.
Qed.

Lemma graphics_keys_absent types :
  resultsFor client getTime q types lim !! "landingPageGraphics" = None ∧
  resultsFor client getTime q types lim !! "parallaxBanners" = None ∧
  resultsFor client getTime q types lim !! "parallaxBanner" = None.
Proof. split_and!; apply unsearched_keys; not_a_key. Qed.

(** Under each key, hits of that key's type only. *)
Lemma hits_have_key_type types key hits h :
  resultsFor client getTime q types lim !! key = Some hits →
  h ∈ hits → resultKey (hitType h) = Some key.
Proof.
  intros Hlookup Hin.
  assert (Hkey : key ∈ ["blogPosts"; "meetings"; "eboardMembers"; "hackathons"])
    by (eapply other_keys; by eexists).
  repeat (apply elem_of_cons in Hkey as [->|Hkey]); [.. | by apply elem_of_nil in Hkey].
  - rewrite blogPosts_key in Hlookup. case_bool_decide; [| done].
    injection Hlookup as <-. by apply list_elem_of_fmap in Hin as (x & -> & _).
  - rewrite meetings_key in Hlookup. case_bool_decide; [| done].
    injection Hlookup as <-. by apply list_elem_of_fmap in Hin as (x & -> & _).
  - rewrite eboardMembers_key in Hlookup. case_bool_decide; [| done].
    injection Hlookup as <-. by apply list_elem_of_fmap in Hin as (x & -> & _).
  - rewrite hackathons_key in Hlookup. case_bool_decide; [| done].
    injection Hlookup as <-. by apply list_elem_of_fmap in Hin as (x & -> & _).
Qed.

Lemma searchable_requested ty (types : list ContentTypeName) :
  searchable ty = true →
  bool_decide (ty ∈ List.filter searchable types) = bool_decide (ty ∈ types).
Proof.
  intros Hty. apply bool_decide_ext.
  rewrite !list_elem_of_In, filter_In. tauto.
Qed.

(** Only the four searched types of the list matter. *)
Lemma resultsFor_searchable types :
  resultsFor client getTime q (List.filter searchable types) lim =
  resultsFor client getTime q types lim.
Proof. unfold resultsFor. by rewrite !searchable_requested. Qed.

End SearchScope.

(** C10: whatever the query, the requested types and the limit, the search
    succeeds with keys among [blogPosts], [meetings], [eboardMembers] and
    [hackathons] only, every hit under a key being of that key's type; the
    total counts those four arrays; and asking for [landingPageGraphics] or
    [parallaxBanner] as well changes neither the results nor the total. *)
Theorem graphics_and_banners_yield_nothing
    {lowering : Js.Lowering} (client : ContentfulClientApi) (getTime : string → option Z)
    (q : string) (cts : option (list ContentTypeName)) (limit : option Z) :
  ∃ e,
    returns (search_content client getTime q cts limit) (SearchText e) ∧
    (∀ key, is_Some (results e !! key) →
            key ∈ ["blogPosts"; "meetings"; "eboardMembers"; "hackathons"]) ∧
    results e !! "landingPageGraphics" = None ∧
    results e !! "parallaxBanners" = None ∧
    results e !! "parallaxBanner" = None ∧
    (∀ key hits h, results e !! key = Some hits → h ∈ hits →
                   resultKey (hitType h) = Some key) ∧
    totalResults e =
      (length (hitsUnder e "blogPosts") + length (hitsUnder e "meetings") +
       length (hitsUnder e "eboardMembers") + length (hitsUnder e "hackathons"))%nat ∧
    ∃ e',
      returns (search_content client getTime q
                 (Some (List.filter searchable (contentTypes e))) limit) (SearchText e') ∧
      results e' = results e ∧ totalResults e' = totalResults e.
Proof.
  eexists. split; [apply search_content_returns |]. simpl.
  split_and!.
  - apply other_keys.
  - apply graphics_keys_absent.
  - apply graphics_keys_absent.
  - apply graphics_keys_absent.
  - apply hits_have_key_type.
  - unfold hitsUnder. simpl. apply sumLengths_resultsFor.
  - eexists. split; [apply search_content_returns |]. simpl.
    by rewrite resultsFor_searchable.
Qed.

Section Sample_graphics_only_search_is_empty.
Existing Instance Js.asciiLowering.

(** On the sample store, asking for graphics and banners only finds
    nothing, though the graphic is titled ["hero"]. *)
Example graphics_only_search_is_empty :
  ∃ e,
    returns (search_content (storeClient sampleStore) sampleGetTime "hero"
               (Some [landingPageGraphics; parallaxBanner]) None) (SearchText e) ∧
    results e = ∅ ∧ totalResults e = 0%nat.
Proof. eexists. split_and!; reflexivity. Qed.

End Sample_graphics_only_search_is_empty.

(** *** The reported content types *)

Section ReportedTypes.
Context {lowering : Js.Lowering}.
Context (client : ContentfulClientApi) (getTime : string → option Z).
Context (q : string) (lim : Z).



End ReportedTypes.


Section Sample_default_list_reports_unsearched_types.
Existing Instance Js.asciiLowering.


End Sample_default_list_reports_unsearched_types.


(** *** The query tools *)

Section LimitFacts.
Context {A : Type}.

Lemma applyLimit_positive (n : Z) (l : list A) :
  0 < n → applyLimit (Some n) l = take (Z.to_nat n) l.
Proof.
  intros Hn. unfold applyLimit.
  destruct (Z.eqb_spec n 0) as [?|_]; [lia |].
  destruct (Z.ltb_spec 0 n) as [_|?]; [| lia].
  simpl. apply slice_from_start. lia.
Qed.

Lemma applyLimit_ignored (limit : option Z) (l : list A) :
  limit = None ∨ (∃ n, limit = Some n ∧ n ≤ 0) → applyLimit limit l = l.
Proof.
  intros [-> | (n & -> & Hn)]; [done |]. unfold applyLimit.
  destruct (Z.ltb_spec 0 n) as [?|_]; [lia |]. by rewrite andb_false_r.
Qed.

Lemma answersWith_intro {P D} (tool : M (ToolResponse (QueryEnvelope P D)))
    name params (row : A → D) limit listing :
  returns tool
    (ToolText {| query := name; parameters := params;
                 count := length (applyLimit limit listing);
                 data := row <$> applyLimit limit listing |}) →
  answersWith tool name params row limit listing.
Proof.
  intros Hret. eexists. split; [exact Hret |]. simpl.
  split_and!; [done | done | by rewrite length_fmap | |].
  - intros n -> Hn. by rewrite applyLimit_positive.
  - intros Hlimit. by rewrite applyLimit_ignored.
Qed.

End LimitFacts.

(** Replaces a resolver call in the goal by its console output and the
    value it is known to return. *)
Ltac settle m H :=
  let l := fresh "l" in
  let r := fresh "r" in
  unfold returns, outcome in H; destruct m as [l r]; simpl in H; subst r.

Section QueryToolFacts.
Context (env : Env) (client : ContentfulClientApi) (getTime : string → option Z).

Lemma query_banners_answers limit banners :
  returns (getParallaxBanners client) banners →
  answersWith (query_banners client limit) "parallax-banners" limit bannerRow limit banners.
Proof.
  intros H. apply answersWith_intro. unfold query_banners, returns, outcome.
  settle (getParallaxBanners client) H. reflexivity.
Qed.

Lemma query_meetings_all_answers limit meetings :
  returns (getAllMeetings client getTime) meetings →
  answersWith (query_meetings client getTime (Some MeetingsKind.all) limit) "meetings"
    (MeetingsKind.all, limit) meetingRow limit meetings.
Proof.
  intros H. apply answersWith_intro. unfold query_meetings, returns, outcome. simpl.
  settle (getAllMeetings client getTime) H. reflexivity.
Qed.

Lemma query_meetings_upcoming_answers limit meetings :
  returns (getUpcomingMeetings client) meetings →
  answersWith (query_meetings client getTime (Some MeetingsKind.upcoming) limit) "meetings"
    (MeetingsKind.upcoming, limit) meetingRow limit meetings.
Proof.
  intros H. apply answersWith_intro. unfold query_meetings, returns, outcome. simpl.
  settle (getUpcomingMeetings client) H. reflexivity.
Qed.

Lemma query_eboard_current_answers limit members :
  returns (getCurrentEboardMembers client) members →
  answersWith (query_eboard_members client (Some MemberKind.current) limit)
    "eboard-members" (MemberKind.current, limit) memberRow limit members.
Proof.
  intros H. apply answersWith_intro. unfold query_eboard_members, returns, outcome. simpl.
  settle (getCurrentEboardMembers client) H. reflexivity.
Qed.

Lemma query_eboard_past_answers limit members :
  returns (getPastEboardMembers client) members →
  answersWith (query_eboard_members client (Some MemberKind.past) limit)
    "eboard-members" (MemberKind.past, limit) memberRow limit members.
Proof.
  intros H. apply answersWith_intro. unfold query_eboard_members, returns, outcome. simpl.
  settle (getPastEboardMembers client) H. reflexivity.
Qed.

Lemma query_eboard_all_answers limit current past :
  returns (getCurrentEboardMembers client) current →
  returns (getPastEboardMembers client) past →
  answersWith (query_eboard_members client (Some MemberKind.all) limit)
    "eboard-members" (MemberKind.all, limit) memberRow limit (current ++ past).
Proof.
  intros Hc Hp. apply answersWith_intro.
  unfold query_eboard_members, returns, outcome. simpl.
  settle (getCurrentEboardMembers client) Hc.
  settle (getPastEboardMembers client) Hp. reflexivity.
Qed.

Lemma query_blog_posts_slug_answers slug limit found :
  Js.truthy slug = true →
  returns (getPostBySlug client slug) found →
  answersWith (query_blog_posts client (Some slug) limit) "blog-posts"
    (Some slug, limit) postRow limit (arrayOf found).
Proof.
  intros Hslug H. apply answersWith_intro.
  unfold query_blog_posts, returns, outcome. simpl. rewrite Hslug.
  settle (getPostBySlug client slug) H. reflexivity.
Qed.

Lemma query_blog_posts_all_answers slug limit posts :
  truthyOpt slug = false →
  returns (getAllPosts client) posts →
  answersWith (query_blog_posts client slug limit) "blog-posts"
    (slug, limit) postRow limit posts.
Proof.
  intros Hslug H. apply answersWith_intro.
  unfold query_blog_posts, returns, outcome. rewrite Hslug.
  settle (getAllPosts client) H. reflexivity.
Qed.

Lemma query_hackathons_slug_answers status slug limit found :
  Js.truthy slug = true →
  returns (getHackathonBySlug client slug) found →
  answersWith (query_hackathons client status (Some slug) limit) "hackathons"
    (default StatusKind.all status, Some slug, limit) hackathonRow limit (arrayOf found).
Proof.
  intros Hslug H. apply answersWith_intro.
  unfold query_hackathons, returns, outcome. simpl. rewrite Hslug.
  settle (getHackathonBySlug client slug) H. reflexivity.
Qed.

Lemma query_hackathons_all_answers status slug limit hackathons :
  truthyOpt slug = false →
  default StatusKind.all status = StatusKind.all →
  returns (getAllHackathons client) hackathons →
  answersWith (query_hackathons client status slug limit) "hackathons"
    (StatusKind.all, slug, limit) hackathonRow limit hackathons.
Proof.
  intros Hslug Hstatus H. apply answersWith_intro.
  unfold query_hackathons, returns, outcome. rewrite Hslug, Hstatus.
  settle (getAllHackathons client) H. reflexivity.
Qed.

Lemma query_graphics_title_answers title limit found :
  Js.truthy title = true →
  returns (getLandingPageGraphicByTitle env client title) found →
  answersWith (query_graphics env client (Some title) limit) "landing-page-graphics"
    (Some title, limit) graphicRow limit (arrayOf found).
Proof.
  intros Htitle H. apply answersWith_intro.
  unfold query_graphics, returns, outcome. simpl. rewrite Htitle.
  settle (getLandingPageGraphicByTitle env client title) H. reflexivity.
Qed.

Lemma query_graphics_all_answers title limit graphics :
  truthyOpt title = false →
  returns (getAllLandingPageGraphics client) graphics →
  answersWith (query_graphics env client title limit) "landing-page-graphics"
    (title, limit) graphicRow limit graphics.
Proof.
  intros Htitle H. apply answersWith_intro.
  unfold query_graphics, returns, outcome. rewrite Htitle.
  settle (getAllLandingPageGraphics client) H. reflexivity.
Qed.

End QueryToolFacts.

(** *** Environment validation and client initialisation, further *)

(** X1: [validateEnv] returns exactly when the three variables are set,
    empty values included, and then with their values as they are;
    otherwise it throws an [Error] whose message lists the variables that
    are not set, and only those. *)
Theorem validateEnv_accepts_set_variables (raw : ProcessEnv) :
  ((∃ env, returns (validateEnv raw) env) ↔
   is_Some (process_REDIS_URL raw) ∧ is_Some (process_CONTENTFUL_SPACE_ID raw) ∧
   is_Some (process_CONTENTFUL_ACCESS_TOKEN raw)) ∧
  (∀ env, returns (validateEnv raw) env →
     process_REDIS_URL raw = Some (REDIS_URL env) ∧
     process_CONTENTFUL_SPACE_ID raw = Some (CONTENTFUL_SPACE_ID env) ∧
     process_CONTENTFUL_ACCESS_TOKEN raw = Some (CONTENTFUL_ACCESS_TOKEN env)) ∧
  ((∃ env, returns (validateEnv raw) env) ∨
   ∃ names,
     throws (validateEnv raw)
       (ErrorObj ("❌ Invalid environment variables: " +:+ String.concat ", " names +:+
                  ". Please check your .env file")) ∧
     names ≠ [] ∧
     ∀ name, name ∈ names ↔
       (name = "REDIS_URL" ∧ process_REDIS_URL raw = None) ∨
       (name = "CONTENTFUL_SPACE_ID" ∧ process_CONTENTFUL_SPACE_ID raw = None) ∨
       (name = "CONTENTFUL_ACCESS_TOKEN" ∧ process_CONTENTFUL_ACCESS_TOKEN raw = None)).
Proof.
  destruct raw as [r s t]. simpl.
  split_and!.
  - destruct r, s, t; unfold validateEnv, returns, outcome, envSchema_parse; simpl;
      (split; [intros [env H]; first [discriminate H | by eauto]
              | intros (H1 & H2 & H3);
                first [by inversion H1 | by inversion H2 | by inversion H3 | by eauto]]).
  - destruct r, s, t; unfold validateEnv, returns, outcome, envSchema_parse; simpl;
      intros env H; first [discriminate H | by injection H as <-].
  - destruct r eqn:Er, s eqn:Es, t eqn:Et; [left; by eexists | right ..];
      exists (issuePath "REDIS_URL" r ++ issuePath "CONTENTFUL_SPACE_ID" s ++
              issuePath "CONTENTFUL_ACCESS_TOKEN" t);
      subst r s t; (split_and!; [reflexivity | discriminate |]);
      intros name; simpl; rewrite ?elem_of_cons, elem_of_nil; intuition congruence.
Qed.

Example validateEnv_names_both_unset :
  outcome (validateEnv {| process_REDIS_URL := None;
                          process_CONTENTFUL_SPACE_ID := Some "";
                          process_CONTENTFUL_ACCESS_TOKEN := None |}) =
  inl (ErrorObj ("❌ Invalid environment variables: REDIS_URL, CONTENTFUL_ACCESS_TOKEN" +:+
                 ". Please check your .env file")).
Proof. reflexivity. Qed.

(** X2: with two credentials that are not empty and a constructor that
    returns, the initialiser installs the constructed client and writes the
    success line, and nothing else, to the console. *)
Theorem initClient_installs_created_client
    (env : Env) (createClient : string → string → Thrown + ContentfulClientApi)
    (client : ContentfulClientApi)
    (Hspace : CONTENTFUL_SPACE_ID env ≠ "")
    (Htoken : CONTENTFUL_ACCESS_TOKEN env ≠ "")
    (Hcreated : createClient (CONTENTFUL_SPACE_ID env) (CONTENTFUL_ACCESS_TOKEN env)
                = inr client) :
  initClient env createClient =
  ([ {| level := LLog; message := "Contentful client initialized successfully" |} ],
   inr client).
Proof.
  unfold initClient.
  destruct (Js.truthy (CONTENTFUL_SPACE_ID env)) eqn:Es;
    [| by apply truthy_false in Es].
  destruct (Js.truthy (CONTENTFUL_ACCESS_TOKEN env)) eqn:Et;
    [| by apply truthy_false in Et].
  simpl. by rewrite Hcreated.
Qed.

Lemma initClient_installs_created_client_witness :
  initClient sampleEnv (λ _ _, inr (storeClient sampleStore)) =
  ([ {| level := LLog; message := "Contentful client initialized successfully" |} ],
   inr (storeClient sampleStore)).
Proof.
  apply (initClient_installs_created_client sampleEnv
           (λ _ _, inr (storeClient sampleStore)) (storeClient sampleStore));
    [discriminate | discriminate | reflexivity].
Defined.

(** X3: with an empty credential the client constructor plays no part: the
    initialiser warns twice, reports an error and installs the fallback
    client, and does the same whatever constructor it is given. *)
Theorem initClient_skips_constructor
    (env : Env) (createClient : string → string → Thrown + ContentfulClientApi)
    (Hempty : CONTENTFUL_SPACE_ID env = "" ∨ CONTENTFUL_ACCESS_TOKEN env = "") :
  returns (initClient env createClient) dummyClient ∧
  level <$> logs (initClient env createClient) = [LWarn; LWarn; LError] ∧
  ∀ createClient', initClient env createClient' = initClient env createClient.
Proof.
  unfold initClient, returns, outcome, logs.
  destruct Hempty as [H|H]; rewrite H; simpl; [done |].
  by destruct (Js.truthy (CONTENTFUL_SPACE_ID env)).
Qed.

Lemma initClient_skips_constructor_witness :
  returns (initClient {| REDIS_URL := "redis://localhost"; CONTENTFUL_SPACE_ID := "space";
                         CONTENTFUL_ACCESS_TOKEN := "" |}
             (λ _ _, inr (storeClient sampleStore)))
    dummyClient.
Proof.
  apply (initClient_skips_constructor
           {| REDIS_URL := "redis://localhost"; CONTENTFUL_SPACE_ID := "space";
              CONTENTFUL_ACCESS_TOKEN := "" |}
           (λ _ _, inr (storeClient sampleStore))).
  right. reflexivity.
Defined.

(** X6: with an empty credential the lookup of a graphic by title does not
    reach the client: it writes an error to the console and returns [null],
    and does the same whatever client it is given. *)
Theorem graphic_lookup_needs_credentials
    (env : Env) (client : ContentfulClientApi) (title : string)
    (Hempty : CONTENTFUL_SPACE_ID env = "" ∨ CONTENTFUL_ACCESS_TOKEN env = "") :
  returns (getLandingPageGraphicByTitle env client title) None ∧
  level <$> logs (getLandingPageGraphicByTitle env client title) = [LLog; LError] ∧
  ∀ client', getLandingPageGraphicByTitle env client' title =
             getLandingPageGraphicByTitle env client title.
Proof.
  unfold getLandingPageGraphicByTitle, returns, outcome, logs.
  destruct Hempty as [H|H]; rewrite H; simpl; [done |].
  by destruct (Js.truthy (CONTENTFUL_SPACE_ID env)).
Qed.

(** The graphic is in the store, and is not found without a token. *)
Lemma graphic_lookup_needs_credentials_witness :
  returns (getLandingPageGraphicByTitle
             {| REDIS_URL := "redis://localhost"; CONTENTFUL_SPACE_ID := "space";
                CONTENTFUL_ACCESS_TOKEN := "" |}
             (storeClient sampleStore) "hero") None.
Proof.
  apply (graphic_lookup_needs_credentials
           {| REDIS_URL := "redis://localhost"; CONTENTFUL_SPACE_ID := "space";
              CONTENTFUL_ACCESS_TOKEN := "" |}
           (storeClient sampleStore) "hero").
  right. reflexivity.
Defined.

(** *** Listings, further *)

Section SortedFacts.
Context {A : Type} (cmp : A → A → option Z) (key : A → Z).

Lemma insertSorted_sorted x (l : list A) :
  (∀ y, y ∈ l → cmp x y = Some (key y - key x)) →
  StronglySorted (λ a b, key b ≤ key a) l →
  StronglySorted (λ a b, key b ≤ key a) (Js.insertSorted cmp x l).
Proof.
  intros Hcmp Hsorted. induction Hsorted as [|y l Hl IH Hy]; simpl.
  - repeat constructor.
  - unfold Js.cmpSign. rewrite (Hcmp y) by apply list_elem_of_here.
    destruct (Z.ltb_spec 0 (key y - key x)) as [Hlt|Hge].
    + constructor.
      * apply IH. intros z Hz. apply Hcmp. by apply list_elem_of_further.
      * rewrite insertSorted_perm. constructor; [lia | done].
    + constructor; [by constructor |].
      constructor; [lia |].
      eapply Forall_impl; [exact Hy |]. simpl. intros z Hz. lia.
Qed.

(** With a comparator that subtracts keys, [sort] puts the larger keys
    first. *)
Lemma sort_sorted (l : list A) :
  (∀ a b, a ∈ l → b ∈ l → cmp a b = Some (key b - key a)) →
  StronglySorted (λ a b, key b ≤ key a) (Js.sort cmp l).
Proof.
  induction l as [|x l IH]; intros Hcmp; simpl; [constructor |].
  apply insertSorted_sorted.
  - intros y Hy. rewrite sort_perm in Hy.
    apply Hcmp; [apply list_elem_of_here | by apply list_elem_of_further].
  - apply IH. intros a b Ha Hb. apply Hcmp; by apply list_elem_of_further.
Qed.

End SortedFacts.

(** X4: when the call resolves, [getAllMeetings] returns the fetched
    meetings, stamped, none added or dropped, whether or not their dates
    can be read; and when every date can be read, they come newest
    first. *)
Theorem meetings_newest_first
    (client : ContentfulClientApi) (getTime : string → option Z)
    (response : EntryCollection Meeting.Fields)
    (Hcall : getEntries client SMeeting allMeetingsQuery = inr response) :
  ∃ v,
    returns (getAllMeetings client getTime) v ∧
    v ≡ₚ stamp "meeting" <$> items response ∧
    ((∀ m, m ∈ items response → is_Some (getTime (Meeting.date (fields m)))) →
     StronglySorted (λ a b, meetingTime getTime b ≤ meetingTime getTime a) v).
Proof.
  exists (stamp "meeting" <$> Js.sort (byDateDescending getTime) (items response)).
  split_and!.
  - generalize (getAllMeetings_returns client getTime). by rewrite Hcall.
  - by rewrite sort_perm.
  - intros Hdates.
    apply (StronglySorted_fmap _
             (λ a b, meetingTime getTime b ≤ meetingTime getTime a)); [done |].
    apply sort_sorted. intros a b Ha Hb.
    unfold byDateDescending, meetingTime.
    destruct (Hdates a Ha) as [ta ->], (Hdates b Hb) as [tb ->]. done.
Qed.

Lemma meetings_newest_first_witness :
  ∃ v,
    returns (getAllMeetings (storeClient sampleStore) sampleGetTime) v ∧
    v ≡ₚ stamp "meeting" <$> store_meetings sampleStore ∧
    StronglySorted (λ a b, meetingTime sampleGetTime b ≤ meetingTime sampleGetTime a) v.
Proof.
  destruct (meetings_newest_first (storeClient sampleStore) sampleGetTime
              {| items := store_meetings sampleStore |} eq_refl)
    as (v & Hret & Hperm & Hsorted).
  exists v. split_and!; [exact Hret | exact Hperm |].
  apply Hsorted. intros m Hm. simpl in Hm.
  repeat (apply elem_of_cons in Hm as [->|Hm]; [by eexists |]).
  by apply elem_of_nil in Hm.
Defined.

Section PassThrough.
Context {F : Type}.

Lemma stamp_keeps_sys ct (l : list (Entry F)) : sys <$> (stamp ct <$> l) = sys <$> l.
Proof. rewrite <- list_fmap_compose. by apply list_fmap_ext. Qed.

Lemma stamp_keeps_fields ct (l : list (Entry F)) :
  fields <$> (stamp ct <$> l) = fields <$> l.
Proof. rewrite <- list_fmap_compose. by apply list_fmap_ext. Qed.

Lemma listed_passes_through ct (response : EntryCollection F) :
  sys <$> listed ct (λ l, l) (inr response) = sys <$> items response ∧
  fields <$> listed ct (λ l, l) (inr response) = fields <$> items response.
Proof. simpl. by rewrite stamp_keeps_sys, stamp_keeps_fields. Qed.

End PassThrough.

Ltac pass_through L :=
  let response := fresh "response" in
  let Hcall := fresh "Hcall" in
  intros response Hcall; eexists; split; [apply L |];
  rewrite Hcall; apply listed_passes_through.

(** X5: the listing resolvers pass the fetched records through: apart from
    the content type tag, what they return has the identifiers and the
    fields the call resolved with, in the same order and number. *)
Theorem listings_pass_records_through (client : ContentfulClientApi) :
  passesThrough (getAllPosts client) (getEntries client SBlogPost allPostsQuery) ∧
  passesThrough (getUpcomingMeetings client)
    (getEntries client SMeeting upcomingMeetingsQuery) ∧
  passesThrough (getParallaxBanners client)
    (getEntries client SParallaxBanner parallaxBannersQuery) ∧
  passesThrough (getCurrentEboardMembers client)
    (getEntries client SEboardMember (eboardMembersQuery "current")) ∧
  passesThrough (getPastEboardMembers client)
    (getEntries client SEboardMember (eboardMembersQuery "past")) ∧
  passesThrough (getAllHackathons client) (getEntries client SHackathon allHackathonsQuery) ∧
  passesThrough (getAllLandingPageGraphics client)
    (getEntries client SLandingPageGraphic allGraphicsQuery).
Proof.
  split_and!.
  - pass_through (getAllPosts_returns client).
  - pass_through (getUpcomingMeetings_returns client).
  - pass_through (getParallaxBanners_returns client).
  - pass_through (getCurrentEboardMembers_returns client).
  - pass_through (getPastEboardMembers_returns client).
  - pass_through (getAllHackathons_returns client).
  - pass_through (getAllLandingPageGraphics_returns client).
Qed.

Example posts_keep_their_identifiers :
  (λ p, Sys.id (sys p)) <$> outcome_value [] (getAllPosts (storeClient sampleStore)) =
  ["p1"; "p2"; "p3"].
Proof. reflexivity. Qed.

(** *** The query tools, one by one *)

(** X7: [query-banners] and [query-meetings] answer with the rows of the
    listing they call ([getAllMeetings] unless the type is ["upcoming"]),
    cut to the first [limit] when the limit is positive and whole
    otherwise, with [count] the number of rows. *)
Theorem listing_tools_apply_limit
    (client : ContentfulClientApi) (getTime : string → option Z) (limit : option Z) :
  (∃ banners,
     returns (getParallaxBanners client) banners ∧
     answersWith (query_banners client limit) "parallax-banners" limit bannerRow
       limit banners) ∧
  (∃ meetings,
     returns (getAllMeetings client getTime) meetings ∧
     answersWith (query_meetings client getTime None limit) "meetings"
       (MeetingsKind.all, limit) meetingRow limit meetings ∧
     answersWith (query_meetings client getTime (Some MeetingsKind.all) limit) "meetings"
       (MeetingsKind.all, limit) meetingRow limit meetings) ∧
  (∃ meetings,
     returns (getUpcomingMeetings client) meetings ∧
     answersWith (query_meetings client getTime (Some MeetingsKind.upcoming) limit)
       "meetings" (MeetingsKind.upcoming, limit) meetingRow limit meetings).
Proof.
  split_and!.
  - eexists. split; [apply getParallaxBanners_returns |].
    apply query_banners_answers, getParallaxBanners_returns.
  - eexists. split; [apply getAllMeetings_returns |].
    split; apply query_meetings_all_answers, getAllMeetings_returns.
  - eexists. split; [apply getUpcomingMeetings_returns |].
    apply query_meetings_upcoming_answers, getUpcomingMeetings_returns.
Qed.

Example two_newest_meetings :
  ∃ e,
    returns (query_meetings (storeClient sampleStore) sampleGetTime None (Some 2))
      (ToolText e) ∧
    count e = 2%nat ∧ MeetingRow.id <$> data e = ["m2"; "m3"].
Proof. eexists. split_and!; reflexivity. Qed.

(** X8: [query-eboard-members] answers with the current members, the past
    members, or, for ["all"] and when no type is given, the current members
    followed by the past ones; the limit cuts that list from its start. *)
Theorem eboard_tool_lists_current_then_past
    (client : ContentfulClientApi) (limit : option Z) :
  ∃ current past,
    returns (getCurrentEboardMembers client) current ∧
    returns (getPastEboardMembers client) past ∧
    answersWith (query_eboard_members client None limit) "eboard-members"
      (MemberKind.all, limit) memberRow limit (current ++ past) ∧
    answersWith (query_eboard_members client (Some MemberKind.all) limit) "eboard-members"
      (MemberKind.all, limit) memberRow limit (current ++ past) ∧
    answersWith (query_eboard_members client (Some MemberKind.current) limit)
      "eboard-members" (MemberKind.current, limit) memberRow limit current ∧
    answersWith (query_eboard_members client (Some MemberKind.past) limit)
      "eboard-members" (MemberKind.past, limit) memberRow limit past.
Proof.
  pose proof (getCurrentEboardMembers_returns client) as Hc.
  pose proof (getPastEboardMembers_returns client) as Hp.
  do 2 eexists. split_and!; [exact Hc | exact Hp | ..].
  - by apply query_eboard_all_answers.
  - by apply query_eboard_all_answers.
  - by apply query_eboard_current_answers.
  - by apply query_eboard_past_answers.
Qed.

Example all_members_current_first :
  ∃ e,
    returns (query_eboard_members (storeClient sampleStore) None None) (ToolText e) ∧
    MemberRow.id <$> data e = ["e1"; "e3"; "e2"].
Proof. eexists. split_and!; reflexivity. Qed.

(** X9: [query-blog-posts] lists all posts when the slug is absent or the
    empty string; with any other slug it answers with what [getPostBySlug]
    found, one row at most, and the listing of all posts plays no part. *)
Theorem blog_tool_looks_up_or_lists
    (client : ContentfulClientApi) (limit : option Z) :
  (∃ posts,
     returns (getAllPosts client) posts ∧
     answersWith (query_blog_posts client None limit) "blog-posts"
       (None, limit) postRow limit posts ∧
     answersWith (query_blog_posts client (Some "") limit) "blog-posts"
       (Some "", limit) postRow limit posts) ∧
  (∀ slug, slug ≠ "" →
     ∃ found,
       returns (getPostBySlug client slug) found ∧
       (length (arrayOf found) ≤ 1)%nat ∧
       answersWith (query_blog_posts client (Some slug) limit) "blog-posts"
         (Some slug, limit) postRow limit (arrayOf found)).
Proof.
  split.
  - eexists. split; [apply getAllPosts_returns |].
    split; apply query_blog_posts_all_answers;
      first [reflexivity | apply getAllPosts_returns].
  - intros slug Hslug. eexists. split; [apply getPostBySlug_returns |]. split.
    + match goal with |- context [arrayOf ?o] => destruct o; simpl; lia end.
    + apply query_blog_posts_slug_answers; [| apply getPostBySlug_returns].
      by destruct slug.
Qed.

Section ToolAnswerFacts.
Context {P D A : Type}.

Lemma applyLimit_nil (limit : option Z) : applyLimit limit (@nil A) = [].
Proof.
  destruct limit as [n|]; [| done]. unfold applyLimit.
  destruct (negb (n =? 0) && (0 <? n)); [| done].
  unfold Js.slice. by rewrite drop_nil, take_nil.
Qed.

Lemma applyLimit_sublist (limit : option Z) (l : list A) :
  applyLimit limit l `sublist_of` l.
Proof.
  destruct limit as [n|]; [| done].
  destruct (Z.lt_ge_cases 0 n) as [Hn|Hn].
  - rewrite applyLimit_positive by done. apply sublist_take.
  - rewrite applyLimit_ignored; [done |]. right. exists n. split; [done | lia].
Qed.

(** What [answersWith] says, in terms of the tool's own cut. *)
Lemma answersWith_data (tool : M (ToolResponse (QueryEnvelope P D)))
    name params (row : A → D) limit listing :
  answersWith tool name params row limit listing →
  ∃ e, returns tool (ToolText e) ∧
       data e = row <$> applyLimit limit listing ∧
       count e = length (applyLimit limit listing).
Proof.
  intros (e & Hret & _ & _ & Hcount & Hpos & Hign).
  exists e. split; [done |].
  assert (Hdata : data e = row <$> applyLimit limit listing).
  { destruct limit as [n|].
    - destruct (Z.lt_ge_cases 0 n) as [Hn|Hn].
      + rewrite applyLimit_positive by done. by apply Hpos.
      + rewrite applyLimit_ignored; [apply Hign |]; right; exists n; (split; [done | lia]).
    - apply Hign. by left. }
  split; [done |]. by rewrite Hcount, Hdata, length_fmap.
Qed.

Lemma answersWith_nil (tool : M (ToolResponse (QueryEnvelope P D)))
    name params (row : A → D) limit :
  answersWith tool name params row limit [] → answersNothing tool.
Proof.
  intros H. apply answersWith_data in H as (e & Hret & Hdata & Hcount).
  exists e. rewrite applyLimit_nil in *. done.
Qed.

End ToolAnswerFacts.

Section HackathonToolFacts.
Context (client : ContentfulClientApi).

Lemma getHackathonBySlug_identifier slug found r :
  returns (getHackathonBySlug client slug) found →
  found = Some r → Sys.id (sys r) = slug.
Proof.
  intros Hret ->. pose proof (getHackathonBySlug_returns client slug) as H.
  unfold returns in *. rewrite Hret in H. injection H as H.
  destruct (getEntries client SHackathon hackathonPage) as [e|response]; [done |].
  symmetry in H. apply fmap_Some in H as (item & Hfound & ->).
  apply find_some in Hfound as [_ Hid]. by apply String.eqb_eq in Hid.
Qed.


Lemma query_hackathons_status_answers kind s slug limit listing :
  truthyOpt slug = false →
  statusOf kind = Some s →
  returns (getHackathonsByStatus client s) listing →
  answersWith (query_hackathons client (Some kind) slug limit) "hackathons"
    (kind, slug, limit) hackathonRow limit listing.
Proof.
  intros Hslug Hkind H. apply answersWith_intro.
  unfold query_hackathons, returns, outcome. rewrite Hslug. simpl.
  destruct kind; simplify_eq/=;
    match goal with
    | |- context [getHackathonsByStatus client ?st] =>
        settle (getHackathonsByStatus client st) H
    end; reflexivity.
Qed.

End HackathonToolFacts.

(** X10: in [query-hackathons] a slug that is not empty overrides the
    status: whatever status is given, the answer has the same rows, one at
    most, and the row's identifier is the slug. *)
Theorem hackathon_tool_slug_overrides_status
    (client : ContentfulClientApi) (slug : string) (limit : option Z)
    (Hslug : slug ≠ "") :
  ∃ rows,
    (length rows ≤ 1)%nat ∧
    (∀ row, row ∈ rows → HackathonRow.id row = slug) ∧
    ∀ status, ∃ e,
      returns (query_hackathons client status (Some slug) limit) (ToolText e) ∧
      data e = rows ∧ count e = length rows.
Proof.
  pose proof (getHackathonBySlug_returns client slug) as Hfound.
  set (found := match getEntries client SHackathon hackathonPage with
                | inl _ => None
                | inr response => _
                end) in Hfound.
  exists (hackathonRow <$> applyLimit limit (arrayOf found)).
  split_and!.
  - rewrite length_fmap.
    etrans; [apply sublist_length, applyLimit_sublist |]. destruct found; simpl; lia.
  - intros row Hrow. apply list_elem_of_fmap in Hrow as (r & -> & Hr).
    apply (λ H, elem_of_sublist _ _ _ H (applyLimit_sublist limit (arrayOf found))) in Hr.
    destruct found as [r'|] eqn:Ef; simpl in Hr; [| by apply elem_of_nil in Hr].
    apply list_elem_of_singleton in Hr as ->. simpl.
    by apply (getHackathonBySlug_identifier client slug _ r' Hfound).
  - intros status.
    assert (Htruthy : Js.truthy slug = true) by by destruct slug.
    destruct (answersWith_data _ _ _ _ _ _
                (query_hackathons_slug_answers client status slug limit found
                   Htruthy Hfound)) as (e & He & Hdata & Hcount).
    exists e. by rewrite length_fmap.
Qed.

(** On the sample store: asked for the ongoing hackathons and for ["h1"],
    the tool answers with [h1], which is past. *)
Lemma hackathon_tool_slug_overrides_status_witness :
  ∃ rows,
    (length rows ≤ 1)%nat ∧
    (∀ row, row ∈ rows → HackathonRow.id row = "h1") ∧
    ∀ status, ∃ e,
      returns (query_hackathons (storeClient sampleStore) status (Some "h1") None)
        (ToolText e) ∧
      data e = rows ∧ count e = length rows.
Proof.
  apply (hackathon_tool_slug_overrides_status (storeClient sampleStore) "h1" None).
  discriminate.
Defined.

Example slug_overrides_status_sample :
  ∃ e,
    returns (query_hackathons (storeClient sampleStore) (Some StatusKind.ongoing)
               (Some "h1") None) (ToolText e) ∧
    HackathonRow.status <$> data e = [Some "past"].
Proof. eexists. split; reflexivity. Qed.


Example upcoming_rows_may_lack_status :
  ∃ e,
    returns (query_hackathons (storeClient sampleStore) (Some StatusKind.upcoming)
               None None) (ToolText e) ∧
    data e = [hackathonRow (stamp "hackathon"
                (sampleHackathon "h2" "Fall Hackathon" (Some "h1") None))].
Proof. eexists. split; reflexivity. Qed.

Section GraphicUrlFacts.
Context (title : string) (item : Entry LandingPageGraphic.Fields).

(** The URL the lookup settles on, without the console. *)
Lemma imageUrl_outcome :
  returns (imageUrl title item)
    (if truthyOpt (Asset.fileUrl (LandingPageGraphic.image (fields item)))
     then Asset.fileUrl (LandingPageGraphic.image (fields item))
     else if truthyOpt (Asset.fileUrl (LandingPageGraphic.graphic (fields item)))
     then Asset.fileUrl (LandingPageGraphic.graphic (fields item))
     else None).
Proof.
  unfold imageUrl, returns, outcome.
  destruct (LandingPageGraphic.image (fields item)) as [image|],
           (LandingPageGraphic.graphic (fields item)) as [graphic|].
  all: repeat match goal with
       | |- context [bool_decide (is_Some ?o)] =>
           first [ rewrite (bool_decide_eq_true_2 (is_Some o)) by eauto
                 | rewrite (bool_decide_eq_false_2 (is_Some o)) by (by intros [? ?]) ]
       end.
  all: change (Asset.fileUrl None) with (@None string).
  all: try generalize (Asset.fileUrl (Some image)).
  all: try generalize (Asset.fileUrl (Some graphic)).
  all: intros; simpl;
    repeat match goal with
           | |- context [truthyOpt ?u] => is_var u; destruct (truthyOpt u)
           end; reflexivity.
Qed.

(** The [imageUrl] of the row made from the record the lookup returns. *)
Lemma graphicRow_modified_url :
  GraphicRow.imageUrl (graphicRow (modifiedItem item)) =
  orElse
    (Asset.fileUrl (match LandingPageGraphic.image (fields item) with
                    | Some image => Some image
                    | None => LandingPageGraphic.graphic (fields item)
                    end))
    (Asset.fileUrl (LandingPageGraphic.graphic (fields item))).
Proof.
  unfold graphicRow, modifiedItem. simpl.
  destruct (LandingPageGraphic.image (fields item)); [done |].
  destruct (LandingPageGraphic.graphic (fields item)); [done |].
  by rewrite bool_decide_eq_false_2 by (by intros [? ?]).
Qed.

End GraphicUrlFacts.

(** X12: a title lookup through [query-graphics] that finds a record
    answers with one row under every limit; the row's [imageUrl], when it
    is a usable URL, is the URL the resolver settled on, and when it is not,
    the resolver settled on none. *)
Theorem graphic_tool_reports_settled_url
    (env : Env) (client : ContentfulClientApi) (title : string) (limit : option Z)
    (response : EntryCollection LandingPageGraphic.Fields)
    (item : Entry LandingPageGraphic.Fields) (rest : list (Entry LandingPageGraphic.Fields))
    (Hspace : CONTENTFUL_SPACE_ID env ≠ "")
    (Htoken : CONTENTFUL_ACCESS_TOKEN env ≠ "")
    (Htitle : title ≠ "")
    (Hcall : getEntries client SLandingPageGraphic (graphicByTitleQuery title) = inr response)
    (Hitems : items response = item :: rest) :
  ∃ e row url,
    returns (query_graphics env client (Some title) limit) (ToolText e) ∧
    data e = [row] ∧ count e = 1%nat ∧
    GraphicRow.id row = Sys.id (sys item) ∧
    GraphicRow.title row = LandingPageGraphic.title (fields item) ∧
    returns (imageUrl title item) url ∧
    (truthyOpt (GraphicRow.imageUrl row) = true → GraphicRow.imageUrl row = url) ∧
    (truthyOpt (GraphicRow.imageUrl row) = false → url = None).
Proof.
  assert (Hfound : returns (getLandingPageGraphicByTitle env client title)
                     (Some (modifiedItem item))).
  { generalize (getLandingPageGraphicByTitle_returns env client title).
    destruct response as [its]. simpl in Hitems. subst its. rewrite Hcall.
    destruct (Js.truthy (CONTENTFUL_SPACE_ID env)) eqn:Es;
      [| by apply truthy_false in Es].
    destruct (Js.truthy (CONTENTFUL_ACCESS_TOKEN env)) eqn:Et;
      [| by apply truthy_false in Et].
    done. }
  assert (Htruthy : Js.truthy title = true) by by destruct title.
  destruct (answersWith_data _ _ _ _ _ _
              (query_graphics_title_answers env client title limit _ Htruthy Hfound))
    as (e & He & Hdata & Hcount).
  assert (Hone : applyLimit limit [modifiedItem item] = [modifiedItem item]).
  { destruct limit as [n|]; [| done].
    destruct (Z.lt_ge_cases 0 n) as [Hn|Hn].
    - rewrite applyLimit_positive by done.
      destruct (Z.to_nat n) eqn:En; [lia | simpl; by rewrite take_nil].
    - apply applyLimit_ignored. right. exists n. split; [done | lia]. }
  simpl in Hdata, Hcount. rewrite Hone in Hdata, Hcount.
  exists e, (graphicRow (modifiedItem item)).
  eexists. split_and!; [done | done | done | done | done | apply imageUrl_outcome | |].
  - rewrite graphicRow_modified_url. unfold orElse.
    destruct (LandingPageGraphic.image (fields item)) as [image|];
      [| change (Asset.fileUrl None) with (@None string); simpl];
      generalize (Asset.fileUrl (LandingPageGraphic.graphic (fields item)));
      try generalize (Asset.fileUrl (Some image)); intros;
      repeat match goal with
             | |- context [truthyOpt ?u] => is_var u; destruct (truthyOpt u) eqn:?
             end; simpl in *; congruence.
  - rewrite graphicRow_modified_url. unfold orElse.
    destruct (LandingPageGraphic.image (fields item)) as [image|];
      [| change (Asset.fileUrl None) with (@None string); simpl];
      generalize (Asset.fileUrl (LandingPageGraphic.graphic (fields item)));
      try generalize (Asset.fileUrl (Some image)); intros;
      repeat match goal with
             | |- context [truthyOpt ?u] => is_var u; destruct (truthyOpt u) eqn:?
             end; simpl in *; congruence.
Qed.

(** The graphic of the sample store keeps its image under [graphic]; the
    tool reports that URL. *)
Lemma graphic_tool_reports_settled_url_witness :
  ∃ e row url,
    returns (query_graphics sampleEnv (storeClient sampleStore) (Some "hero") (Some 3))
      (ToolText e) ∧
    data e = [row] ∧ count e = 1%nat ∧
    GraphicRow.id row = "g1" ∧ GraphicRow.title row = "hero" ∧
    returns (imageUrl "hero"
               (sampleGraphic "g1" "hero" None (Some (sampleAsset (Some "//img/hero.png")))))
      url ∧
    (truthyOpt (GraphicRow.imageUrl row) = true → GraphicRow.imageUrl row = url) ∧
    (truthyOpt (GraphicRow.imageUrl row) = false → url = None).
Proof.
  apply (graphic_tool_reports_settled_url sampleEnv (storeClient sampleStore) "hero"
           (Some 3) {| items := store_graphics sampleStore |}
           (sampleGraphic "g1" "hero" None (Some (sampleAsset (Some "//img/hero.png"))))
           []); [discriminate | discriminate | discriminate | reflexivity | reflexivity].
Defined.

Example graphic_tool_sample_url :
  ∃ e,
    returns (query_graphics sampleEnv (storeClient sampleStore) (Some "hero") None)
      (ToolText e) ∧
    GraphicRow.imageUrl <$> data e = [Some "//img/hero.png"].
Proof. eexists. split; reflexivity. Qed.

(** *** A store that rejects every call *)

Section RejectingStore.
Context (env : Env) (client : ContentfulClientApi) (getTime : string → option Z).
Context (Hfail : ∀ s q, ∃ err, getEntries client s q = inl err).

Ltac rejected L :=
  generalize L; unfold listed;
  match goal with
  | |- context [getEntries client ?s ?q] => destruct (Hfail s q) as [? ->]
  end; try destruct (negb _ || negb _); done.

Lemma rejected_posts : returns (getAllPosts client) [].
Proof. rejected (getAllPosts_returns client). Qed.

Lemma rejected_post slug : returns (getPostBySlug client slug) None.
Proof. rejected (getPostBySlug_returns client slug). Qed.

Lemma rejected_meetings : returns (getAllMeetings client getTime) [].
Proof. rejected (getAllMeetings_returns client getTime). Qed.

Lemma rejected_upcoming : returns (getUpcomingMeetings client) [].
Proof. rejected (getUpcomingMeetings_returns client). Qed.

Lemma rejected_banners : returns (getParallaxBanners client) [].
Proof. rejected (getParallaxBanners_returns client). Qed.

Lemma rejected_current : returns (getCurrentEboardMembers client) [].
Proof. rejected (getCurrentEboardMembers_returns client). Qed.

Lemma rejected_past : returns (getPastEboardMembers client) [].
Proof. rejected (getPastEboardMembers_returns client). Qed.

Lemma rejected_hackathons : returns (getAllHackathons client) [].
Proof. rejected (getAllHackathons_returns client). Qed.

Lemma rejected_by_status s : returns (getHackathonsByStatus client s) [].
Proof. rejected (getHackathonsByStatus_returns client s). Qed.

Lemma rejected_hackathon slug : returns (getHackathonBySlug client slug) None.
Proof. rejected (getHackathonBySlug_returns client slug). Qed.

Lemma rejected_graphic title : returns (getLandingPageGraphicByTitle env client title) None.
Proof. rejected (getLandingPageGraphicByTitle_returns env client title). Qed.

Lemma rejected_graphics : returns (getAllLandingPageGraphics client) [].
Proof. rejected (getAllLandingPageGraphics_returns client). Qed.

End RejectingStore.

(** X13: against a store that rejects every call, each of the six query
    tools still answers with a text, never with an error: a count of zero
    and no rows, whatever the parameters. *)
Theorem query_tools_fail_open
    (env : Env) (client : ContentfulClientApi) (getTime : string → option Z)
    (Hfail : ∀ s q, ∃ err, getEntries client s q = inl err)
    (slug title : option string) (limit : option Z)
    (type : option MeetingsKind.t) (memberType : option MemberKind.t)
    (status : option StatusKind.t) :
  answersNothing (query_blog_posts client slug limit) ∧
  answersNothing (query_meetings client getTime type limit) ∧
  answersNothing (query_eboard_members client memberType limit) ∧
  answersNothing (query_hackathons client status slug limit) ∧
  answersNothing (query_graphics env client title limit) ∧
  answersNothing (query_banners client limit).
Proof.
  split_and!.
  - destruct slug as [[|c slug]|].
    + eapply answersWith_nil, query_blog_posts_all_answers;
        [done | by apply rejected_posts].
    + eapply (answersWith_nil _ _ _ postRow),
        (query_blog_posts_slug_answers client _ limit None);
        [done | by apply rejected_post].
    + eapply answersWith_nil, query_blog_posts_all_answers;
        [done | by apply rejected_posts].
  - destruct type as [[]|].
    + eapply answersWith_nil, query_meetings_all_answers. by apply rejected_meetings.
    + eapply answersWith_nil, query_meetings_upcoming_answers. by apply rejected_upcoming.
    + eapply answersWith_nil, (query_meetings_all_answers client getTime limit).
      by apply rejected_meetings.
  - destruct memberType as [[]|].
    + eapply answersWith_nil, query_eboard_current_answers. by apply rejected_current.
    + eapply answersWith_nil, query_eboard_past_answers. by apply rejected_past.
    + eapply answersWith_nil, (query_eboard_all_answers client limit [] []);
        [by apply rejected_current | by apply rejected_past].
    + eapply answersWith_nil, (query_eboard_all_answers client limit [] []);
        [by apply rejected_current | by apply rejected_past].
  - destruct (truthyOpt slug) eqn:Hslug.
    + destruct slug as [slug|]; [| done].
      eapply (answersWith_nil _ _ _ hackathonRow),
        (query_hackathons_slug_answers client status slug limit None);
        [done | by apply rejected_hackathon].
    + destruct status as [kind|]; [destruct (statusOf kind) as [s|] eqn:Hkind |].
      * eapply answersWith_nil, (query_hackathons_status_answers client kind s);
          [done | done | by apply rejected_by_status].
      * eapply answersWith_nil, query_hackathons_all_answers;
          [done | by destruct kind | by apply rejected_hackathons].
      * eapply answersWith_nil, query_hackathons_all_answers;
          [done | done | by apply rejected_hackathons].
  - destruct title as [[|c title]|].
    + eapply answersWith_nil, query_graphics_all_answers;
        [done | by apply rejected_graphics].
    + eapply (answersWith_nil _ _ _ graphicRow),
        (query_graphics_title_answers env client _ limit None);
        [done | by apply rejected_graphic].
    + eapply answersWith_nil, query_graphics_all_answers;
        [done | by apply rejected_graphics].
  - eapply answersWith_nil, query_banners_answers. by apply rejected_banners.
Qed.

Lemma query_tools_fail_open_witness :
  answersNothing (query_hackathons (failingClient (ErrorObj "ECONNRESET"))
                    (Some StatusKind.past) None (Some 3)) ∧
  answersNothing (query_blog_posts (failingClient (ErrorObj "ECONNRESET"))
                    (Some "welcome") None).
Proof.
  pose proof (query_tools_fail_open sampleEnv (failingClient (ErrorObj "ECONNRESET"))
                sampleGetTime (λ s q, ex_intro _ (ErrorObj "ECONNRESET") eq_refl)) as H.
  split.
  - exact (proj1 (proj2 (proj2 (proj2
             (H None None (Some 3) None None (Some StatusKind.past)))))).
  - exact (proj1 (H (Some "welcome") None None None None None)).
Defined.

(** X14: against a store that rejects every call the statistics overview
    is not an error text: it reports zero for each of its seven counts. *)
Theorem stats_of_rejecting_store
    (client : ContentfulClientApi) (getTime : string → option Z) (now : string)
    (Hfail : ∀ s q, ∃ err, getEntries client s q = inl err) :
  returns (contentful_stats client getTime now)
    (StatsText "Contentful CMS Statistics"
       {| count_blogPosts := 0; count_meetings := 0;
          count_currentEboardMembers := 0; count_pastEboardMembers := 0;
          count_hackathons := 0; count_landingPageGraphics := 0;
          count_parallaxBanners := 0 |}
       now).
Proof.
  apply (statsOver_counts _ _ _ _ _ _ _ now [] [] [] [] [] [] []).
  - by apply rejected_posts.
  - by apply rejected_meetings.
  - by apply rejected_current.
  - by apply rejected_past.
  - by apply rejected_hackathons.
  - by apply rejected_graphics.
  - by apply rejected_banners.
Qed.

Lemma stats_of_rejecting_store_witness :
  returns (contentful_stats (failingClient (NonError "offline")) sampleGetTime
             "2024-05-01T00:00:00.000Z")
    (StatsText "Contentful CMS Statistics"
       {| count_blogPosts := 0; count_meetings := 0;
          count_currentEboardMembers := 0; count_pastEboardMembers := 0;
          count_hackathons := 0; count_landingPageGraphics := 0;
          count_parallaxBanners := 0 |}
       "2024-05-01T00:00:00.000Z").
Proof.
  apply (stats_of_rejecting_store (failingClient (NonError "offline")) sampleGetTime).
  intros s q. by exists (NonError "offline").
Defined.

(** *** The search tool, further *)

Section SearchEdgeFacts.
Context {F : Type} (hit : Entry F → SearchHit).


Lemma searchIn_ext (m m' : Entry F → bool) lim (l : list (Entry F)) :
  (∀ x, m x = m' x) → searchIn m hit lim l = searchIn m' hit lim l.
Proof. intros Hext. unfold searchIn. by rewrite (filter_ext _ _ Hext). Qed.



Lemma searchIn_capped (m : Entry F → bool) lim (l : list (Entry F)) :
  0 ≤ lim → searchIn m hit lim l = hit <$> take (Z.to_nat lim) (List.filter m l).
Proof. intros Hlim. unfold searchIn. by rewrite slice_from_start. Qed.


End SearchEdgeFacts.


Lemma matchesQuery_case {lowering : Js.Lowering} q q' text :
  Js.toLowerCase q = Js.toLowerCase q' → matchesQuery q text = matchesQuery q' text.
Proof. unfold matchesQuery. by intros ->. Qed.

Section SearchReports.
Context {lowering : Js.Lowering}.
Context (client : ContentfulClientApi) (getTime : string → option Z).
Context (q : string) (cts : option (list ContentTypeName)) (limit : option Z).

(** The envelope of a search, key by key, in terms of the listings. *)
Lemma search_reports posts meetings current past hackathons :
  returns (getAllPosts client) posts →
  returns (getAllMeetings client getTime) meetings →
  returns (getCurrentEboardMembers client) current →
  returns (getPastEboardMembers client) past →
  returns (getAllHackathons client) hackathons →
  ∃ e,
    returns (search_content client getTime q cts limit) (SearchText e) ∧
    searchQuery e = q ∧
    contentTypes e = default defaultContentTypes cts ∧
    totalResults e =
      (length (hitsUnder e "blogPosts") + length (hitsUnder e "meetings") +
       length (hitsUnder e "eboardMembers") + length (hitsUnder e "hackathons"))%nat ∧
    reportsUnder e blogPost "blogPosts"
      (searchIn (postMatches q) postHit (default 5 limit) posts) ∧
    reportsUnder e meeting "meetings"
      (searchIn (meetingMatches q) meetingHit (default 5 limit) meetings) ∧
    reportsUnder e eboardMember "eboardMembers"
      (searchIn (memberMatches q) memberHit (default 5 limit) (current ++ past)) ∧
    reportsUnder e hackathon "hackathons"
      (searchIn (hackathonMatches q) hackathonHit (default 5 limit) hackathons).
Proof.
  intros Hp Hm Hc Hpa Hh. eexists. split; [apply search_content_returns |].
  unfold reportsUnder, hitsUnder. simpl.
  rewrite blogPosts_key, meetings_key, eboardMembers_key, hackathons_key.
  rewrite (outcome_value_returns _ _ _ Hp), (outcome_value_returns _ _ _ Hm),
    (outcome_value_returns _ _ _ Hc), (outcome_value_returns _ _ _ Hpa),
    (outcome_value_returns _ _ _ Hh).
  split_and!; try done.
  - rewrite sumLengths_resultsFor.
    rewrite blogPosts_key, meetings_key, eboardMembers_key, hackathons_key.
    by rewrite (outcome_value_returns _ _ _ Hp), (outcome_value_returns _ _ _ Hm),
      (outcome_value_returns _ _ _ Hc), (outcome_value_returns _ _ _ Hpa),
      (outcome_value_returns _ _ _ Hh).
  - by destruct (bool_decide (blogPost ∈ _)).
  - by destruct (bool_decide (meeting ∈ _)).
  - by destruct (bool_decide (eboardMember ∈ _)).
  - by destruct (bool_decide (hackathon ∈ _)).
Qed.

End SearchReports.

Lemma reportsUnder_eq e ty key hits hits' :
  hits = hits' → reportsUnder e ty key hits → reportsUnder e ty key hits'.
Proof. by intros ->. Qed.

Lemma reportsUnder_length e ty key hits :
  reportsUnder e ty key hits → (length (hitsUnder e key) ≤ length hits)%nat.
Proof.
  unfold reportsUnder, hitsUnder. destruct (bool_decide _); intros ->; simpl; lia.
Qed.



Section Sample_empty_query_matches_everything_witness.
Existing Instance Js.asciiLowering.


End Sample_empty_query_matches_everything_witness.

(** X16: the search does not see the case of the query: two queries that
    agree once lowered give the same results, the same total and the same
    list of types. *)
Theorem search_ignores_query_case
    {lowering : Js.Lowering} (client : ContentfulClientApi) (getTime : string → option Z)
    (q q' : string) (cts : option (list ContentTypeName)) (limit : option Z)
    (Hcase : Js.toLowerCase q = Js.toLowerCase q') :
  ∃ e e',
    returns (search_content client getTime q cts limit) (SearchText e) ∧
    returns (search_content client getTime q' cts limit) (SearchText e') ∧
    results e = results e' ∧
    totalResults e = totalResults e' ∧
    contentTypes e = contentTypes e'.
Proof.
  do 2 eexists.
  split; [apply search_content_returns |].
  split; [apply search_content_returns |]. simpl.
  assert (Hsame : ∀ types lim,
            resultsFor client getTime q types lim = resultsFor client getTime q' types lim).
  { intros types lim. unfold resultsFor.
    rewrite (searchIn_ext _ (hackathonMatches q) (hackathonMatches q')),
      (searchIn_ext _ (memberMatches q) (memberMatches q')),
      (searchIn_ext _ (meetingMatches q) (meetingMatches q')),
      (searchIn_ext _ (postMatches q) (postMatches q')); [done | ..];
      intros x; unfold postMatches, meetingMatches, memberMatches, hackathonMatches;
      by rewrite !(matchesQuery_case q q'). }
  by rewrite Hsame.
Qed.

Section Sample_search_ignores_query_case_witness.
Existing Instance Js.asciiLowering.

Lemma search_ignores_query_case_witness :
  ∃ e e',
    returns (search_content (storeClient sampleStore) sampleGetTime "HackAthon" None None)
      (SearchText e) ∧
    returns (search_content (storeClient sampleStore) sampleGetTime "hackathon" None None)
      (SearchText e') ∧
    results e = results e' ∧
    totalResults e = totalResults e' ∧
    contentTypes e = contentTypes e'.
Proof.
  apply (search_ignores_query_case (storeClient sampleStore) sampleGetTime
           "HackAthon" "hackathon" None None).
  reflexivity.
Defined.

End Sample_search_ignores_query_case_witness.

(** X17: an explicit, empty list of types is not replaced by the default
    list: the search then calls no resolver, writes nothing to the console
    and reports no key and a total of zero. *)
Theorem search_of_no_types_is_empty
    {lowering : Js.Lowering} (client : ContentfulClientApi) (getTime : string → option Z)
    (q : string) (limit : option Z) :
  search_content client getTime q (Some []) limit =
  ([], inr (SearchText {| searchQuery := q; contentTypes := [];
                          totalResults := 0; results := ∅ |})).
Proof. reflexivity. Qed.


Section Sample_search_isolates_failed_listing_witness.
Existing Instance Js.asciiLowering.


End Sample_search_isolates_failed_listing_witness.


Section Sample_zero_limit_finds_nothing.
Existing Instance Js.asciiLowering.

Example zero_limit_finds_nothing :
  ∃ e,
    returns (search_content (storeClient sampleStore) sampleGetTime "hack" None (Some 0))
      (SearchText e) ∧
    results e !! "hackathons" = Some [] ∧ totalResults e = 0%nat.
Proof. eexists. split_and!; reflexivity. Qed.

End Sample_zero_limit_finds_nothing.


Section Sample_search_negative_limit_drops_last_witness.
Existing Instance Js.asciiLowering.


End Sample_search_negative_limit_drops_last_witness.

(** X21: with a limit that is not negative the total of a search is at
    most four times the limit, one share for each searched type. *)
Theorem search_total_is_bounded
    {lowering : Js.Lowering} (client : ContentfulClientApi) (getTime : string → option Z)
    (q : string) (cts : option (list ContentTypeName)) (limit : option Z)
    (Hlimit : 0 ≤ default 5 limit) :
  ∃ e,
    returns (search_content client getTime q cts limit) (SearchText e) ∧
    Z.of_nat (length (hitsUnder e "blogPosts")) ≤ default 5 limit ∧
    Z.of_nat (length (hitsUnder e "meetings")) ≤ default 5 limit ∧
    Z.of_nat (length (hitsUnder e "eboardMembers")) ≤ default 5 limit ∧
    Z.of_nat (length (hitsUnder e "hackathons")) ≤ default 5 limit ∧
    Z.of_nat (totalResults e) ≤ 4 * default 5 limit.
Proof.
  pose proof (getAllPosts_returns client) as Hp.
  pose proof (getAllMeetings_returns client getTime) as Hm.
  pose proof (getCurrentEboardMembers_returns client) as Hc.
  pose proof (getPastEboardMembers_returns client) as Hpa.
  pose proof (getAllHackathons_returns client) as Hh.
  destruct (search_reports client getTime q cts limit _ _ _ _ _ Hp Hm Hc Hpa Hh)
    as (e & He & Hq & Htypes & Htotal & Rp & Rm & Re & Rh).
  apply reportsUnder_length in Rp, Rm, Re, Rh.
  unfold searchIn in Rp, Rm, Re, Rh.
  rewrite length_fmap in Rp. rewrite length_fmap in Rm.
  rewrite length_fmap in Re. rewrite length_fmap in Rh.
  match type of Rp with
  | (_ <= length (Js.slice ?l _ _))%nat => pose proof (slice_length_le l _ Hlimit) as Bp
  end.
  match type of Rm with
  | (_ <= length (Js.slice ?l _ _))%nat => pose proof (slice_length_le l _ Hlimit) as Bm
  end.
  match type of Re with
  | (_ <= length (Js.slice ?l _ _))%nat => pose proof (slice_length_le l _ Hlimit) as Be
  end.
  match type of Rh with
  | (_ <= length (Js.slice ?l _ _))%nat => pose proof (slice_length_le l _ Hlimit) as Bh
  end.
  exists e. split; [done |]. rewrite Htotal. lia.
Qed.

Section Sample_search_total_is_bounded_witness.
Existing Instance Js.asciiLowering.

Lemma search_total_is_bounded_witness :
  ∃ e,
    returns (search_content (storeClient sampleStore) sampleGetTime "a" None (Some 1))
      (SearchText e) ∧
    Z.of_nat (totalResults e) ≤ 4.
Proof.
  destruct (search_total_is_bounded (storeClient sampleStore) sampleGetTime "a" None
              (Some 1) ltac:(simpl; lia)) as (e & He & _ & _ & _ & _ & Htotal).
  exists e. split; [exact He | exact Htotal].
Defined.

End Sample_search_total_is_bounded_witness.

(** X22: in the search the current eboard members come before the past
    ones: the hits are the first [limit] of the matching current members
    followed by the matching past members, so that past members are left
    out altogether when [limit] current members match. *)
Theorem search_prefers_current_members
    {lowering : Js.Lowering} (client : ContentfulClientApi) (getTime : string → option Z)
    (q : string) (cts : option (list ContentTypeName)) (limit : option Z)
    (Hlimit : 0 ≤ default 5 limit) :
  ∃ current past e,
    returns (getCurrentEboardMembers client) current ∧
    returns (getPastEboardMembers client) past ∧
    returns (search_content client getTime q cts limit) (SearchText e) ∧
    reportsUnder e eboardMember "eboardMembers"
      (memberHit <$>
         take (Z.to_nat (default 5 limit))
              (List.filter (memberMatches q) current ++
               List.filter (memberMatches q) past)) ∧
    (default 5 limit ≤ Z.of_nat (length (List.filter (memberMatches q) current)) →
     reportsUnder e eboardMember "eboardMembers"
       (memberHit <$>
          take (Z.to_nat (default 5 limit)) (List.filter (memberMatches q) current))).
Proof.
  pose proof (getAllPosts_returns client) as Hp.
  pose proof (getAllMeetings_returns client getTime) as Hm.
  pose proof (getCurrentEboardMembers_returns client) as Hc.
  pose proof (getPastEboardMembers_returns client) as Hpa.
  pose proof (getAllHackathons_returns client) as Hh.
  destruct (search_reports client getTime q cts limit _ _ _ _ _ Hp Hm Hc Hpa Hh)
    as (e & He & Hq & Htypes & Htotal & Rp & Rm & Re & Rh).
  do 2 eexists. exists e. split_and!; [exact Hc | exact Hpa | exact He | |].
  - eapply reportsUnder_eq; [| exact Re].
    rewrite searchIn_capped by done. by rewrite List.filter_app.
  - intros Hmany. eapply reportsUnder_eq; [| exact Re].
    rewrite searchIn_capped by done. rewrite List.filter_app.
    rewrite take_app_le by lia. done.
Qed.

Section Sample_search_prefers_current_members_witness.
Existing Instance Js.asciiLowering.

Lemma search_prefers_current_members_witness :
  ∃ e,
    returns (search_content (storeClient sampleStore) sampleGetTime "" (Some [eboardMember])
               (Some 2)) (SearchText e) ∧
    results e !! "eboardMembers" =
      Some [ EboardMemberHit "e1" "Ada" "President" EboardMember.current;
             EboardMemberHit "e3" "Linus" "Treasurer" EboardMember.current ].
Proof.
  destruct (search_prefers_current_members (storeClient sampleStore) sampleGetTime ""
              (Some [eboardMember]) (Some 2) ltac:(simpl; lia))
    as (current & past & e & Hc & Hpa & He & _ & _).
  exists e. split; [exact He |].
  unfold returns in He. injection He as <-. reflexivity.
Defined.

End Sample_search_prefers_current_members_witness.
